(** * SoulMail backend: the AI generation service and its controller

    A shallow embedding of [src/services/aiService.js] and of the AI
    controller that calls it, together with the part of the JavaScript
    runtime these two files rely on (string and array methods, their
    regular expressions, [parseInt], [JSON.parse], truthiness).

    Strings are sequences of UTF-16 code units, as in the language; the
    asynchronous functions are written in a state-and-exception monad whose
    state counts the calls made to the generative provider. *)

From Stdlib Require Import String Ascii.
From Stdlib Require Import List Bool Arith ZArith NArith QArith Lia.
From Stdlib Require Import DecimalPos.
Import ListNotations.

Set Implicit Arguments.
Set Warnings "-register-all".

(* ================================================================== *)
(** * The JavaScript runtime used by the service *)
(* ================================================================== *)

Module JS.

#[local] Open Scope N_scope.

(** A string is a list of UTF-16 code units. *)
Definition code_unit := N.
Definition jsstring := list code_unit.

(** Literals of the source are written as Rocq strings (Latin-1 only). *)
Definition str (s : string) : jsstring :=
  map N_of_ascii (list_ascii_of_string s).

Definition cu_eqb (a b : code_unit) : bool := N.eqb a b.

Definition LF : code_unit := 10.
Definition DQUOTE : code_unit := 34.
Definition SQUOTE : code_unit := 39.
Definition BACKSLASH : code_unit := 92.
Definition QMARK : code_unit := 63.
Definition BANG : code_unit := 33.
Definition DOT : code_unit := 46.

(** WhiteSpace and LineTerminator code points of ECMAScript: what
    [String.prototype.trim] and [parseInt] strip. *)
Definition is_whitespace (c : code_unit) : bool :=
  ((9 <=? c) && (c <=? 13))
  || (c =? 32) || (c =? 160) || (c =? 5760)
  || ((8192 <=? c) && (c <=? 8202))
  || (c =? 8232) || (c =? 8233) || (c =? 8239) || (c =? 8287)
  || (c =? 12288) || (c =? 65279).

Definition is_letter (c : code_unit) : bool :=
  ((65 <=? c) && (c <=? 90)) || ((97 <=? c) && (c <=? 122)).

Definition is_digit (c : code_unit) : bool := (48 <=? c) && (c <=? 57).

Section ListOps.
Variable A : Type.

Fixpoint dropWhile (p : A -> bool) (l : list A) : list A :=
  match l with
  | [] => []
  | x :: r => if p x then dropWhile p r else l
  end.

Fixpoint takeWhile (p : A -> bool) (l : list A) : list A :=
  match l with
  | [] => []
  | x :: r => if p x then x :: takeWhile p r else []
  end.

(** [dropWhileEnd p l] removes the longest suffix of [l] satisfying [p]. *)
Fixpoint dropWhileEnd (p : A -> bool) (l : list A) : list A :=
  match l with
  | [] => []
  | x :: r =>
      match dropWhileEnd p r with
      | [] => if p x then [] else [x]
      | r' => x :: r'
      end
  end.
End ListOps.

(** [s.trim()] *)
Definition trimStart (s : jsstring) : jsstring := dropWhile is_whitespace s.
Definition trimEnd (s : jsstring) : jsstring := dropWhileEnd is_whitespace s.
Definition trim (s : jsstring) : jsstring := trimEnd (trimStart s).

(** [s.substring(0, n)]: a negative (or NaN) end is taken as 0, an end
    beyond the length as the length. *)
Definition substring0 (n : Z) (s : jsstring) : jsstring :=
  firstn (Z.to_nat n) s.

(** [a.slice(0, n)] on arrays: a negative end counts from the end. *)
Definition slice0 (A : Type) (n : Z) (l : list A) : list A :=
  if (n <? 0)%Z
  then firstn (Z.to_nat (Z.max (Z.of_nat (length l) + n) 0)) l
  else firstn (Z.to_nat n) l.

(** [s.split(sep)] for a one-unit separator: always at least one piece. *)
Fixpoint split (sep : code_unit) (s : jsstring) : list jsstring :=
  match s with
  | [] => [[]]
  | c :: r =>
      if cu_eqb c sep then [] :: split sep r
      else match split sep r with
           | [] => [[c]]
           | p :: ps => (c :: p) :: ps
           end
  end.

(** [a.join(sep)], the inverse of [split]. *)
Fixpoint join (sep : code_unit) (l : list jsstring) : jsstring :=
  match l with
  | [] => []
  | [x] => x
  | x :: r => x ++ sep :: join sep r
  end.

(** ** Regular expressions

    A pattern is given by its matcher at a position: [m s] is the length
    of the match of the pattern at the head of [s], if there is one.
    [replace_all] is [s.replace(/p/g, rep)] for patterns that never match
    the empty string: scan from the left, at each position either replace
    the match and resume after it, or copy one unit.  [skip] is the number
    of units of a match still to be passed over. *)
Fixpoint replace_from (m : jsstring -> option nat) (rep : jsstring)
         (skip : nat) (s : jsstring) : jsstring :=
  match s with
  | [] => []
  | c :: r =>
      match skip with
      | S k => replace_from m rep k r
      | O =>
          match m s with
          | Some (S k) => rep ++ replace_from m rep k r
          | _ => c :: replace_from m rep 0 r
          end
      end
  end.

Definition replace_all (m : jsstring -> option nat) (rep s : jsstring) :=
  replace_from m rep 0 s.

(** A one-unit character class. *)
Definition match_class (p : code_unit -> bool) (s : jsstring) : option nat :=
  match s with
  | c :: _ => if p c then Some 1%nat else None
  | [] => None
  end.

(** [/\n{3,}/]: greedy, so the whole run of line feeds when it has at
    least three. *)
Definition match_newlines3 (s : jsstring) : option nat :=
  let k := length (takeWhile (cu_eqb LF) s) in
  if (3 <=? k)%nat then Some k else None.

(** [/[^.!?]*\?/] at the head of [s].  The starred class is greedy and
    cannot contain [?], so giving units back never helps: the match exists
    exactly when the first of [.], [!], [?] met is a [?]. *)
Fixpoint match_question_at (s : jsstring) : option jsstring :=
  match s with
  | [] => None
  | c :: r =>
      if cu_eqb c QMARK then Some [c]
      else if cu_eqb c DOT || cu_eqb c BANG then None
      else option_map (cons c) (match_question_at r)
  end.

(** [text.match(/[^.!?]*\?/)]: the match at the leftmost position that has
    one ([questionMatch[0]]), or [None] for [null]. *)
Fixpoint match_question (s : jsstring) : option jsstring :=
  match match_question_at s with
  | Some m => Some m
  | None =>
      match s with
      | [] => None
      | _ :: r => match_question r
      end
  end.

(** ** parseInt(string, 10)

    The mathematical integer of the longest prefix of decimal digits,
    after leading white space and an optional sign; [None] is [NaN].  The
    runtime rounds the integer to a double; the comparisons made on it
    below (with 0, 1 and 5) are not affected by that rounding. *)
Definition digit_value (c : code_unit) : Z := Z.of_N (c - 48).

Definition digits_value (ds : jsstring) : Z :=
  fold_left (fun acc c => (10 * acc + digit_value c)%Z) ds 0%Z.

Definition parseInt10 (s : jsstring) : option Z :=
  let t := trimStart s in
  let '(neg, body) :=
    match t with
    | c :: r => if c =? 45 then (true, r)
                else if c =? 43 then (false, r) else (false, t)
    | [] => (false, t)
    end in
  match takeWhile is_digit body with
  | [] => None
  | ds => Some (if neg then (- digits_value ds)%Z else digits_value ds)
  end.

(** ** Values

    The values that reach the service: request bodies and query strings
    decoded by the framework, documents of the content store, and the
    result of [JSON.parse].  A number is kept as the rational it denotes. *)
Inductive jsval : Type :=
| VUndefined
| VNull
| VBool (b : bool)
| VNum (q : Q)
| VNaN
| VStr (s : jsstring)
| VArr (items : list jsval)
| VObj (fields : list (jsstring * jsval)).

(** ToBoolean *)
Definition truthy (v : jsval) : bool :=
  match v with
  | VUndefined | VNull | VNaN => false
  | VBool b => b
  | VNum q => negb (Qnum q =? 0)%Z
  | VStr s => match s with [] => false | _ => true end
  | VArr _ | VObj _ => true
  end.

(** [a || b] and [a ?? b] *)
Definition js_or (a b : jsval) : jsval := if truthy a then a else b.

Definition nullish (v : jsval) : bool :=
  match v with VUndefined | VNull => true | _ => false end.

Definition js_coalesce (a b : jsval) : jsval := if nullish a then b else a.

Fixpoint jsstring_eqb (a b : jsstring) : bool :=
  match a, b with
  | [], [] => true
  | x :: a', y :: b' => cu_eqb x y && jsstring_eqb a' b'
  | _, _ => false
  end.

(** [s.startsWith(p)] *)
Fixpoint starts_with (p s : jsstring) : bool :=
  match p, s with
  | [], _ => true
  | x :: p', y :: s' => cu_eqb x y && starts_with p' s'
  | _ :: _, [] => false
  end.

(** Reading an own property; with duplicate keys the last definition
    wins, as [JSON.parse] builds its objects. *)
Fixpoint lookup (k : jsstring) (fields : list (jsstring * jsval)) : jsval :=
  match fields with
  | [] => VUndefined
  | (k', v) :: r =>
      match lookup k r with
      | VUndefined => if jsstring_eqb k k' then v else VUndefined
      | w => w
      end
  end.

(** [const { k } = v]: a TypeError ([None]) on [null] and [undefined];
    [undefined] for a primitive or an array, which have no such property. *)
Definition destructure (k : jsstring) (v : jsval) : option jsval :=
  match v with
  | VNull | VUndefined => None
  | VObj fields => Some (lookup k fields)
  | _ => Some VUndefined
  end.

(** ToString of a string that may be [undefined] *)
Definition to_string (t : option jsstring) : jsstring :=
  match t with
  | Some s => s
  | None => str "undefined"
  end.

(** [n || d] on a number [n] that may be [NaN]: [NaN] and 0 are falsy. *)
Definition number_or (n : option Z) (d : Z) : Z :=
  match n with
  | Some z => if (z =? 0)%Z then d else z
  | None => d
  end.

End JS.

(* ================================================================== *)
(** * JSON.parse *)
(* ================================================================== *)

(** The JSON grammar of ECMA-404, as [JSON.parse] accepts it: a lexer
    that cuts the text into tokens, and a pushdown parser over the tokens.
    Both are structurally recursive, so parsing is total. *)
Module Json.
Import JS.
#[local] Open Scope N_scope.

Inductive token : Type :=
| TLBrace | TRBrace | TLBracket | TRBracket | TColon | TComma
| TLit (v : jsval).

Definition is_json_ws (c : code_unit) : bool :=
  (c =? 9) || (c =? 10) || (c =? 13) || (c =? 32).

Definition hex_value (c : code_unit) : option N :=
  if is_digit c then Some (c - 48)
  else if (65 <=? c) && (c <=? 70) then Some (c - 55)
  else if (97 <=? c) && (c <=? 102) then Some (c - 87)
  else None.

Definition hex4 (a b c d : code_unit) : option code_unit :=
  match hex_value a, hex_value b, hex_value c, hex_value d with
  | Some x, Some y, Some z, Some w => Some (((x * 16 + y) * 16 + z) * 16 + w)
  | _, _, _, _ => None
  end.

(** The unit denoted by a one-letter escape. *)
Definition simple_escape (e : code_unit) : option code_unit :=
  if e =? 34 then Some 34          (* quotation mark *)
  else if e =? 92 then Some 92     (* reverse solidus *)
  else if e =? 47 then Some 47     (* solidus *)
  else if e =? 98 then Some 8      (* b: backspace *)
  else if e =? 102 then Some 12    (* f: form feed *)
  else if e =? 110 then Some 10    (* n: line feed *)
  else if e =? 114 then Some 13    (* r: carriage return *)
  else if e =? 116 then Some 9     (* t: tab *)
  else None.

Definition cons_unit (c : code_unit) (n : nat)
           (r : option (jsstring * nat)) : option (jsstring * nat) :=
  match r with
  | Some (s, k) => Some (c :: s, (n + k)%nat)
  | None => None
  end.

(** The rest of a string literal after its opening quote: its value and
    the number of units read, closing quote included. *)
Fixpoint lex_string_body (s : jsstring) : option (jsstring * nat) :=
  match s with
  | [] => None
  | c :: r =>
      if c =? 34 then Some ([], 1%nat)
      else if c =? 92 then
        match r with
        | [] => None
        | e :: r1 =>
            if e =? 117 then
              match r1 with
              | h1 :: h2 :: h3 :: h4 :: r2 =>
                  match hex4 h1 h2 h3 h4 with
                  | Some u => cons_unit u 6 (lex_string_body r2)
                  | None => None
                  end
              | _ => None
              end
            else
              match simple_escape e with
              | Some u => cons_unit u 2 (lex_string_body r1)
              | None => None
              end
        end
      else if c <? 32 then None
      else cons_unit c 1 (lex_string_body r)
  end.

(** [m * 10^e] *)
Definition decimal (m e : Z) : Q :=
  if (0 <=? e)%Z then Qmake (m * 10 ^ e) 1
  else Qmake m (Z.to_pos (10 ^ (- e))).

(** A number literal at the head of [s]: its value and its length. *)
Definition lex_number (s : jsstring) : option (Q * nat) :=
  let '(neg, s1) :=
    match s with
    | c :: r => if c =? 45 then (true, r) else (false, s)
    | [] => (false, s)
    end in
  match takeWhile is_digit s1 with
  | [] => None
  | d :: ds =>
      let int_part := if d =? 48 then [d] else d :: ds in
      let s2 := skipn (length int_part) s1 in
      let frac :=
        match s2 with
        | c :: r => if c =? 46 then takeWhile is_digit r else []
        | [] => []
        end in
      let nfrac := match frac with [] => O | _ => S (length frac) end in
      let s3 := skipn nfrac s2 in
      let '(e, nexp) :=
        match s3 with
        | c :: r =>
            if (c =? 101) || (c =? 69) then
              let '(eneg, nsign, r1) :=
                match r with
                | g :: r' => if g =? 45 then (true, 1%nat, r')
                             else if g =? 43 then (false, 1%nat, r')
                             else (false, O, r)
                | [] => (false, O, r)
                end in
              match takeWhile is_digit r1 with
              | [] => (0%Z, O)
              | es => (if eneg then (- digits_value es)%Z else digits_value es,
                       S (nsign + length es))
              end
            else (0%Z, O)
        | [] => (0%Z, O)
        end in
      let m := digits_value (int_part ++ frac) in
      let q := decimal (if neg then (- m)%Z else m)
                       (e - Z.of_nat (length frac)) in
      Some (q, ((if neg then 1 else 0) + length int_part + nfrac + nexp)%nat)
  end.

(** The token at the head of [s] and its length. *)
Definition lex (s : jsstring) : option (token * nat) :=
  match s with
  | [] => None
  | c :: r =>
      if c =? 123 then Some (TLBrace, 1%nat)
      else if c =? 125 then Some (TRBrace, 1%nat)
      else if c =? 91 then Some (TLBracket, 1%nat)
      else if c =? 93 then Some (TRBracket, 1%nat)
      else if c =? 58 then Some (TColon, 1%nat)
      else if c =? 44 then Some (TComma, 1%nat)
      else if c =? 34 then
        match lex_string_body r with
        | Some (v, n) => Some (TLit (VStr v), S n)
        | None => None
        end
      else if starts_with (str "true") s then Some (TLit (VBool true), 4%nat)
      else if starts_with (str "false") s then Some (TLit (VBool false), 5%nat)
      else if starts_with (str "null") s then Some (TLit VNull, 4%nat)
      else
        match lex_number s with
        | Some (q, n) => Some (TLit (VNum q), n)
        | None => None
        end
  end.

(** The tokens of a text, white space between them dropped; [skip] is the
    number of units of the current token still to be passed over. *)
Fixpoint tokenize (skip : nat) (s : jsstring) : option (list token) :=
  match s with
  | [] => Some []
  | c :: r =>
      match skip with
      | S k => tokenize k r
      | O =>
          if is_json_ws c then tokenize 0 r
          else
            match lex s with
            | Some (t, S k) => option_map (cons t) (tokenize k r)
            | _ => None
            end
      end
  end.

(** ** The parser

    A stack of the containers being built, and what may come next. *)
Inductive frame : Type :=
| FArr (done : list jsval)
| FObj (done : list (jsstring * jsval))
| FMember (done : list (jsstring * jsval)) (key : jsstring).

Inductive mode : Type :=
| ExpectValue            (* at the start, after a colon, after a comma *)
| ExpectValueOrClose     (* after an opening bracket *)
| ExpectKeyOrClose       (* after an opening brace *)
| ExpectKey              (* after a comma in an object *)
| ExpectColon (key : jsstring)
| AfterValue (v : jsval).

Definition pstate : Type := (list frame * mode)%type.

Definition open_value (stack : list frame) (t : token) : option pstate :=
  match t with
  | TLit v => Some (stack, AfterValue v)
  | TLBracket => Some (FArr [] :: stack, ExpectValueOrClose)
  | TLBrace => Some (FObj [] :: stack, ExpectKeyOrClose)
  | _ => None
  end.

Definition step (st : pstate) (t : token) : option pstate :=
  let '(stack, m) := st in
  match m with
  | ExpectValue => open_value stack t
  | ExpectValueOrClose =>
      match t, stack with
      | TRBracket, FArr done :: rest => Some (rest, AfterValue (VArr (rev done)))
      | _, _ => open_value stack t
      end
  | ExpectKeyOrClose =>
      match t, stack with
      | TRBrace, FObj done :: rest => Some (rest, AfterValue (VObj (rev done)))
      | TLit (VStr k), _ => Some (stack, ExpectColon k)
      | _, _ => None
      end
  | ExpectKey =>
      match t with
      | TLit (VStr k) => Some (stack, ExpectColon k)
      | _ => None
      end
  | ExpectColon k =>
      match t, stack with
      | TColon, FObj done :: rest => Some (FMember done k :: rest, ExpectValue)
      | _, _ => None
      end
  | AfterValue v =>
      match stack, t with
      | FArr done :: rest, TComma => Some (FArr (v :: done) :: rest, ExpectValue)
      | FArr done :: rest, TRBracket =>
          Some (rest, AfterValue (VArr (rev (v :: done))))
      | FMember done k :: rest, TComma =>
          Some (FObj ((k, v) :: done) :: rest, ExpectKey)
      | FMember done k :: rest, TRBrace =>
          Some (rest, AfterValue (VObj (rev ((k, v) :: done))))
      | _, _ => None
      end
  end.

Fixpoint run (st : pstate) (ts : list token) : option jsval :=
  match ts with
  | [] =>
      match st with
      | ([], AfterValue v) => Some v
      | _ => None
      end
  | t :: r =>
      match step st t with
      | Some st' => run st' r
      | None => None
      end
  end.

(** [JSON.parse(text)]; [None] when it throws a SyntaxError. *)
Definition parse (text : jsstring) : option jsval :=
  match tokenize 0 text with
  | Some ts => run ([], ExpectValue) ts
  | None => None
  end.

End Json.

(* ================================================================== *)
(** * Errors and effects *)
(* ================================================================== *)

Module Effects.
Import JS.

(** What the provider SDK rejects with: an error object with a message
    and, for an HTTP failure, the status the provider reported. *)
Record ProviderError : Type := {
  status : option Z;
  message : option jsstring
}.

(** Modelled from the spec: the errors raised by the service and the
    controller; [middleware/errorHandler.js], which declares the two error
    classes, is not among the sources.  [ValidationError] carries a message
    and a map of field-level details; [AIServiceError] carries a message
    and, when its second argument is given, the original failure as its
    cause.  [TypeError] is the runtime's own error, raised when a method is
    called on [undefined]. *)
Inductive thrown : Type :=
| ValidationError (msg : jsstring) (details : list (jsstring * jsstring))
| AIServiceError (msg : jsstring) (originalError : option ProviderError)
| TypeError.

Inductive result (E A : Type) : Type :=
| Ok (a : A)
| Err (e : E).
Arguments Ok {E A} a.
Arguments Err {E A} e.

(** The only state a request touches: how many calls the provider has
    received. *)
Record State : Type := { provider_calls : nat }.

(** An asynchronous function: the state in, a result or an exception of
    type [E] and the state out. *)
Definition M (E A : Type) : Type := State -> result E A * State.

Definition ret {E A} (a : A) : M E A := fun st => (Ok a, st).

Definition throw {E A} (e : E) : M E A := fun st => (Err e, st).

Definition bind {E A B} (c : M E A) (k : A -> M E B) : M E B :=
  fun st =>
    match c st with
    | (Ok a, st') => k a st'
    | (Err e, st') => (Err e, st')
    end.

(** [try { c } catch (error) { h error }] *)
Definition try_catch {E F A} (c : M E A) (h : E -> M F A) : M F A :=
  fun st =>
    match c st with
    | (Ok a, st') => (Ok a, st')
    | (Err e, st') => h e st'
    end.

(** A synchronous result used where a promise is awaited. *)
Definition lift {E A} (r : result E A) : M E A := fun st => (r, st).

Module Notations.
  Notation "x <- c ;; k" := (bind c (fun x => k))
    (at level 61, c at next level, right associativity).
  Notation "c ;;; k" := (bind c (fun _ => k))
    (at level 61, right associativity).
End Notations.

End Effects.

(* ================================================================== *)
(** * services/aiService.js *)
(* ================================================================== *)

Module Service.
Import JS Effects Effects.Notations.
#[local] Open Scope Q_scope.

(** ** Data *)

(** The provider's reply, as the service reads it: [response.text],
    [response.candidates?.[0]?.finishReason], [response.usageMetadata] and
    [response.candidates?.[0]?.safetyRatings]. *)
Record Response : Type := {
  text : option jsstring;
  finishReason : jsval;
  usageMetadata : jsval;
  safetyRatings : jsval
}.

(** The [options] of [generateContent]. *)
Record Options : Type := {
  systemInstruction : jsval;
  model : jsval;
  temperature : jsval;
  maxOutputTokens : jsval;
  topP : jsval;
  topK : jsval
}.

Record GenerationConfig : Type := {
  config_temperature : jsval;
  config_maxOutputTokens : jsval;
  config_topP : jsval;
  config_topK : jsval;
  config_systemInstruction : option jsval  (* [None]: the key is not set *)
}.

(** A letter document of the content store. *)
Record Letter : Type := {
  _id : jsval;
  title : option jsstring;
  content : option jsstring;
  mood : jsval;
  goals : jsval;
  createdAt : jsval;
  isDelivered : bool
}.

Record WritingOptions : Type := {
  w_mood : jsval;
  w_theme : jsval;
  w_count : option Z
}.

Record AffirmationOptions : Type := {
  username : jsval;
  timeOfDay : jsval;
  stats : jsval
}.

(** What one call hands to the provider.  The instruction texts are
    rendered from these data by string interpolation alone, which raises
    nothing on the documents of the store; the provider is a black box, so
    the rendering itself is not modelled. *)
Inductive Request : Type :=
| FreeformRequest (model contents : jsval) (config : GenerationConfig)
| ReflectionRequest (sanitizedTitle : jsstring) (letter : Letter)
| WritingPromptsRequest (mood theme : jsval) (count : Z)
| AffirmationRequest (options : AffirmationOptions).

(** [metadata] of a result; an absent key reads as [undefined]. *)
Record Metadata : Type := {
  meta_finishReason : jsval;
  meta_safetyRatings : jsval;
  meta_usageMetadata : jsval;
  parseError : jsval
}.

(** The spec's [degraded] flag is the source's [metadata.parseError]. *)
Definition degraded (m : Metadata) : bool := truthy (parseError m).

Record Generated : Type := { gen_text : jsstring; gen_metadata : Metadata }.
Record ReflectionResult : Type := { prompt : jsval; refl_metadata : Metadata }.
Record PromptsResult : Type := { prompts : jsval; prompts_metadata : Metadata }.
Record AffirmationResult : Type :=
  { affirmation : jsval; aff_metadata : Metadata }.

(** ** Constants *)

Definition DEFAULT_CONFIG : GenerationConfig := {|
  config_temperature := VNum 0.7;
  config_maxOutputTokens := VNum 2048;
  config_topP := VNum 0.95;
  config_topK := VNum 40;
  config_systemInstruction := None
|}.

Definition DEFAULT_MODEL : jsstring := str "gemini-3-flash-preview".

Definition DEFAULT_QUESTION : jsstring :=
  str "How do you feel reading this letter now?".

(** ** Pure helpers *)

(** [extractQuestionFromText] (lines 157-171).  [!text] holds of
    [undefined] and of the empty string.  The first [replace] has an
    anchored, starred pattern, [/^[^a-zA-Z]*/]: it deletes the longest
    prefix without a letter.  The second deletes every quote. *)
Definition extractQuestionFromText (t : option jsstring) : jsstring :=
  match t with
  | None | Some [] => DEFAULT_QUESTION
  | Some s =>
      match match_question s with
      | Some questionMatch =>
          trim
            (replace_all
               (match_class (fun c => cu_eqb c DQUOTE || cu_eqb c SQUOTE)) []
               (dropWhile (fun c => negb (is_letter c)) questionMatch))
      | None => DEFAULT_QUESTION
      end
  end.

(** [sanitizeForPrompt] (lines 177-186); [maxLength] is [None] when the
    argument is left out. *)
Definition sanitizeForPrompt (t : option jsstring) (maxLength : option Z)
  : jsstring :=
  match t with
  | None | Some [] => []
  | Some s =>
      let n := match maxLength with Some n => n | None => 2000%Z end in
      trim
        (replace_all match_newlines3 [LF; LF]
           (replace_all (match_class (cu_eqb BACKSLASH)) []
              (replace_all (match_class (cu_eqb DQUOTE)) [SQUOTE]
                 (substring0 n s))))
  end.

(** [validatePrompt] (lines 437-449): it returns nothing or throws. *)
Definition validatePrompt (p : jsval) : result thrown unit :=
  match p with
  | VStr s =>
      if (length (trim s) =? 0)%nat
      then Err (ValidationError (str "Prompt cannot be empty")
                  [(str "prompt", str "Prompt must contain text")])
      else Ok tt
  | _ =>
      Err (ValidationError (str "Prompt is required and must be a string")
             [(str "prompt", str "A valid text prompt is required")])
  end.

(** [buildGenerationConfig] (lines 452-466): the first two fields are
    merged with [||], the last two with [??]. *)
Definition buildGenerationConfig (options : Options) : GenerationConfig := {|
  config_temperature :=
    js_or (temperature options) (config_temperature DEFAULT_CONFIG);
  config_maxOutputTokens :=
    js_or (maxOutputTokens options) (config_maxOutputTokens DEFAULT_CONFIG);
  config_topP := js_coalesce (topP options) (config_topP DEFAULT_CONFIG);
  config_topK := js_coalesce (topK options) (config_topK DEFAULT_CONFIG);
  config_systemInstruction :=
    if truthy (systemInstruction options)
    then Some (systemInstruction options) else None
|}.

(** [formatResponse] (lines 500-510) *)
Definition formatResponse (response : Response) : Generated := {|
  gen_text := match text response with Some s => s | None => [] end;
  gen_metadata := {|
    meta_finishReason := finishReason response;
    meta_safetyRatings := safetyRatings response;
    meta_usageMetadata := usageMetadata response;
    parseError := VUndefined |}
|}.

(** ** The provider gateway *)

Definition MSG_RATE_LIMIT : jsstring :=
  str "AI service rate limit exceeded. Please, try again later.".
Definition MSG_BAD_REQUEST : jsstring := str "Invalid request to AI service".
Definition MSG_AUTH : jsstring :=
  str "AI Service authentication failed. Check API key configuration.".
Definition MSG_UNAVAILABLE : jsstring :=
  str "AI Service temporarily unavailable".

(** Modelled from the spec: the taxonomy kind of an error.  The source
    has one class, [AIServiceError], for the four provider kinds, which its
    callers can tell apart by the message alone; the missing
    [middleware/errorHandler.js] declares the classes. *)
Inductive Kind : Type :=
| Validation
| ProviderRateLimited
| ProviderBadRequest
| ProviderAuthFailed
| ProviderUnavailable.

(** Modelled from the spec: the kind of a raised error, read off its
    class and, for an [AIServiceError], off the message the gateway gave
    it. *)
Definition kind (e : thrown) : option Kind :=
  match e with
  | ValidationError _ _ => Some Validation
  | AIServiceError msg _ =>
      if jsstring_eqb msg MSG_RATE_LIMIT then Some ProviderRateLimited
      else if jsstring_eqb msg MSG_AUTH then Some ProviderAuthFailed
      else if starts_with MSG_BAD_REQUEST msg then Some ProviderBadRequest
      else if starts_with MSG_UNAVAILABLE msg then Some ProviderUnavailable
      else None
  | TypeError => None
  end.

(** Modelled from the spec: the kind section 4.4 assigns to a
    provider-reported status. *)
Definition kindOfStatus (st : option Z) : Kind :=
  match st with
  | Some s =>
      if (s =? 429)%Z then ProviderRateLimited
      else if (s =? 400)%Z then ProviderBadRequest
      else if ((s =? 401) || (s =? 403))%Z then ProviderAuthFailed
      else ProviderUnavailable
  | None => ProviderUnavailable
  end.

Definition status_is (error : ProviderError) (code : Z) : bool :=
  match status error with
  | Some s => (s =? code)%Z
  | None => false
  end.

(** The [catch] block of [callGeminiAPI]: the error thrown for a failure
    of the provider call. *)
Definition gatewayError (error : ProviderError) : thrown :=
  if status_is error 429 then AIServiceError MSG_RATE_LIMIT (Some error)
  else if status_is error 400 then
    AIServiceError (MSG_BAD_REQUEST ++ to_string (message error)) None
  else if status_is error 401 || status_is error 403 then
    AIServiceError MSG_AUTH (Some error)
  else
    AIServiceError (MSG_UNAVAILABLE ++ to_string (message error)) (Some error).

Definition callGeminiAPI {A} (apiCall : M ProviderError A) : M thrown A :=
  try_catch apiCall (fun error => throw (gatewayError error)).

Inductive ProviderOutcome : Type :=
| Resolved (response : Response)
| Rejected (error : ProviderError).

Section Provider.

(** The generative provider: what it answers to a request, which may
    depend on how many calls it has received before. *)
Variable provider : nat -> Request -> ProviderOutcome.

(** [ai.models.generateContent(request)] *)
Definition models_generateContent (request : Request)
  : M ProviderError Response :=
  fun st =>
    (match provider (provider_calls st) request with
     | Resolved response => Ok response
     | Rejected error => Err error
     end,
     {| provider_calls := S (provider_calls st) |}).

(** ** Public API *)

Definition generateContent (p : jsval) (options : Options)
  : M thrown Generated :=
  lift (validatePrompt p) ;;;
  let config := buildGenerationConfig options in
  response <- callGeminiAPI
    (models_generateContent
       (FreeformRequest (js_or (model options) (VStr DEFAULT_MODEL))
          p config)) ;;
  ret (formatResponse response).

(** The [try] block shared by the three intents:
    [const { key } = JSON.parse(response.text)].  [None] when it throws,
    either the SyntaxError of [JSON.parse] or the TypeError of
    destructuring [null]. *)
Definition decode (key : jsstring) (response : Response) : option jsval :=
  match Json.parse (to_string (text response)) with
  | Some v => destructure key v
  | None => None
  end.

Definition parsedMetadata (response : Response) : Metadata := {|
  meta_finishReason := finishReason response;
  meta_safetyRatings := VUndefined;
  meta_usageMetadata := usageMetadata response;
  parseError := VUndefined |}.

Definition fallbackMetadata : Metadata := {|
  meta_finishReason := VUndefined;
  meta_safetyRatings := VUndefined;
  meta_usageMetadata := VUndefined;
  parseError := VBool true |}.

Definition has_content (letter : Letter) : bool :=
  match content letter with
  | Some (_ :: _) => true
  | _ => false
  end.

(** [letter.title || 'Untitled'] *)
Definition titleOrUntitled (letter : Letter) : jsstring :=
  match title letter with
  | Some (c :: r) => c :: r
  | _ => str "Untitled"
  end.

Definition generateReflectionPrompt (letter : option Letter)
  : M thrown ReflectionResult :=
  match letter with
  | Some l =>
      if has_content l then
        let sanitizedTitle :=
          sanitizeForPrompt (Some (titleOrUntitled l)) (Some 100%Z) in
        response <- callGeminiAPI
          (models_generateContent (ReflectionRequest sanitizedTitle l)) ;;
        match decode (str "question") response with
        | Some question =>
            ret {| prompt := question;
                   refl_metadata := parsedMetadata response |}
        | None =>
            ret {| prompt := VStr (extractQuestionFromText (text response));
                   refl_metadata := fallbackMetadata |}
        end
      else
        throw (ValidationError
                 (str "Letter content is required to generate a reflection prompt")
                 [(str "letter", str "A valid letter with content is required")])
  | None =>
      throw (ValidationError
               (str "Letter content is required to generate a reflection prompt")
               [(str "letter", str "A valid letter with content is required")])
  end.

(** The [catch] block of [generateWritingPrompts] on a text:
    [text.split('\n').map(p => p.trim()).filter(p => p.length > 5)]
    and then [.slice(0, count)]. *)
Definition fallbackPrompts (t : jsstring) (count : Z) : list jsstring :=
  slice0 count
    (filter (fun p => (5 <? length p)%nat) (map trim (split LF t))).

Definition generateWritingPrompts (options : WritingOptions)
  : M thrown PromptsResult :=
  let count := match w_count options with Some n => n | None => 3%Z end in
  response <- callGeminiAPI
    (models_generateContent
       (WritingPromptsRequest (w_mood options) (w_theme options) count)) ;;
  match decode (str "prompts") response with
  | Some ps =>
      ret {| prompts := ps; prompts_metadata := parsedMetadata response |}
  | None =>
      match text response with
      | Some t =>
          ret {| prompts := VArr (map VStr (fallbackPrompts t count));
                 prompts_metadata := fallbackMetadata |}
      | None => throw TypeError   (* [undefined.split] *)
      end
  end.

Definition generateAffirmation (options : AffirmationOptions)
  : M thrown AffirmationResult :=
  response <- callGeminiAPI
    (models_generateContent (AffirmationRequest options)) ;;
  match decode (str "affirmation") response with
  | Some a =>
      ret {| affirmation := a; aff_metadata := parsedMetadata response |}
  | None =>
      match text response with
      | Some t =>
          ret {| affirmation := VStr (trim t);
                 aff_metadata := fallbackMetadata |}
      | None => throw TypeError   (* [undefined.trim] *)
      end
  end.

End Provider.

End Service.

(* ================================================================== *)
(** * The AI controller *)
(* ================================================================== *)

Module Controller.
Import JS Effects Effects.Notations Service.

(** Whether [parseInt] finds an integer in a raw count: after leading
    white space and an optional sign, the text starts with a digit. *)
Definition leadingInteger (s : jsstring) : bool :=
  match trimStart s with
  | [] => false
  | c :: r =>
      match (if (cu_eqb c 45%N || cu_eqb c 43%N) then r else c :: r) with
      | d :: _ => is_digit d
      | [] => false
      end
  end.

(** [res.status(200).json({ success: true, data })] *)
Record Envelope (A : Type) : Type := { success : bool; data : A }.

Record GenerateBody : Type := {
  body_prompt : jsval;
  body_systemInstruction : jsval;
  body_model : jsval;
  body_temperature : jsval;
  body_maxOutputTokens : jsval
}.

Record ReflectionData : Type := { data_prompt : jsval; data_letterId : jsval }.

(** [data: { prompts: response.prompts }] (lines 96-98). *)
Record PromptsData : Type := { data_prompts : jsval }.

(** [data: { affirmation: response.affirmation }] (lines 125-127). *)
Record AffirmationData : Type := { data_affirmation : jsval }.

Record User : Type := {
  user_id : jsval;
  user_name : jsval;
  user_username : jsval;
  user_stats : jsval
}.

(** [let promptCount = parseInt(count, 10) || 3], then the two clamps.
    [count] is [None] when the query has no such parameter. *)
Definition promptCount (count : option jsstring) : Z :=
  let promptCount := number_or (parseInt10 (to_string count)) 3 in
  let promptCount := if (promptCount <? 1)%Z then 1%Z else promptCount in
  if (promptCount >? 5)%Z then 5%Z else promptCount.

Section Collaborators.

Variable provider : nat -> Request -> ProviderOutcome.

(** Modelled from the spec: [letterService.getLetterById(userId,
    letterId)] of the content store, which is not among the sources.  It
    supplies the letter or fails when there is none owned by the caller;
    it has no access to the provider. *)
Variable getLetterById : jsval -> jsval -> result thrown Letter.

Definition generate (body : GenerateBody) : M thrown (Envelope Generated) :=
  response <- generateContent provider (body_prompt body)
    {| systemInstruction := body_systemInstruction body;
       model := body_model body;
       temperature := body_temperature body;
       maxOutputTokens := body_maxOutputTokens body;
       topP := VUndefined;
       topK := VUndefined |} ;;
  ret {| success := true; data := response |}.

Definition getReflectionPrompt (user : User) (letterId : jsval)
  : M thrown (Envelope ReflectionData) :=
  let userId := user_id user in
  if negb (truthy letterId) then
    throw (ValidationError (str "Letter ID is required")
             [(str "letterId", str "Please provide the letter ID")])
  else
    letter <- lift (getLetterById userId letterId) ;;
    if negb (isDelivered letter) then
      throw (ValidationError
               (str "Reflection prompts are only available for delivered letters")
               [(str "letterId", str "This letter has not been delivered yet")])
    else
      response <- generateReflectionPrompt provider (Some letter) ;;
      ret {| success := true;
             data := {| data_prompt := prompt response;
                        data_letterId := _id letter |} |}.

Definition getWritingPrompts (mood theme : jsval) (count : option jsstring)
  : M thrown (Envelope PromptsData) :=
  response <- generateWritingPrompts provider
    {| w_mood := mood; w_theme := theme;
       w_count := Some (promptCount count) |} ;;
  ret {| success := true;
         data := {| data_prompts := prompts response |} |}.

Definition getAffirmation (user : User) (tod : jsval)
  : M thrown (Envelope AffirmationData) :=
  response <- generateAffirmation provider
    {| username := js_or (user_name user) (user_username user);
       timeOfDay := tod;
       stats := user_stats user |} ;;
  ret {| success := true;
         data := {| data_affirmation := affirmation response |} |}.

End Collaborators.

End Controller.

(* ================================================================== *)
(** * services/aiService.js: the prompt helpers *)
(* ================================================================== *)

(** The helpers that render the context of a prompt.  They are pure; the
    clock of [getTimeSinceWritten] and the runtime's [toLowerCase] are
    passed in. *)
Module Helpers.
Import JS Effects Service.
#[local] Open Scope N_scope.

(** ** Numbers in template literals *)

Fixpoint uint_units (u : Decimal.uint) : jsstring :=
  match u with
  | Decimal.Nil => []
  | Decimal.D0 r => 48 :: uint_units r
  | Decimal.D1 r => 49 :: uint_units r
  | Decimal.D2 r => 50 :: uint_units r
  | Decimal.D3 r => 51 :: uint_units r
  | Decimal.D4 r => 52 :: uint_units r
  | Decimal.D5 r => 53 :: uint_units r
  | Decimal.D6 r => 54 :: uint_units r
  | Decimal.D7 r => 55 :: uint_units r
  | Decimal.D8 r => 56 :: uint_units r
  | Decimal.D9 r => 57 :: uint_units r
  end.

(** ToString of an integer Number (below 10^21 in magnitude, where the
    runtime still writes all the digits): decimal digits, with a minus sign
    when negative. *)
Definition integer_to_string (z : Z) : jsstring :=
  match Z.to_int z with
  | Decimal.Pos u => uint_units u
  | Decimal.Neg u => 45 :: uint_units u
  end.

(** A Number that is an integer or [NaN] ([None]). *)
Definition number_to_string (n : option Z) : jsstring :=
  match n with
  | Some z => integer_to_string z
  | None => str "NaN"
  end.

(** [a < b], [a !== b] and [Math.floor(a / b)] with [a] possibly
    [NaN]: every comparison with [NaN] is false, [NaN !== b] is true. *)
Definition num_lt (a : option Z) (b : Z) : bool :=
  match a with Some z => (z <? b)%Z | None => false end.

Definition num_neq (a : option Z) (b : Z) : bool :=
  match a with Some z => negb (z =? b)%Z | None => true end.

Definition floor_div (a : option Z) (b : Z) : option Z :=
  match a with Some z => Some (z / b)%Z | None => None end.

(** [a.join(sep)] with a separator of any length. *)
Fixpoint joinWith (sep : jsstring) (l : list jsstring) : jsstring :=
  match l with
  | [] => []
  | [x] => x
  | x :: r => x ++ sep ++ joinWith sep r
  end.

(** [hay.includes(needle)] *)
Fixpoint includes (needle hay : jsstring) : bool :=
  starts_with needle hay
  || match hay with
     | [] => false
     | _ :: r => includes needle r
     end.

(** ** getTimeSinceWritten (lines 321-340) *)

(** A [Date]: its time value in milliseconds, or an invalid date. *)
Inductive Instant : Type :=
| InvalidDate
| At (ms : Z).

(** The template [`${n} word${n !== 1 ? 's' : ''}`], used four times. *)
Definition counted (n : option Z) (word : jsstring) : jsstring :=
  number_to_string n ++ str " " ++ word
    ++ (if num_neq n 1 then str "s" else []).

(** [now] is the time value of [new Date()]; [createdAt] is [None] when
    the field is not set.  The quotients are those of the runtime for the
    dates a store holds (the doubles involved are far below 2^53). *)
Definition getTimeSinceWritten (now : Z) (createdAt : option Instant)
  : jsstring :=
  match createdAt with
  | None => str "some time"
  | Some written =>
      let diffMs :=
        match written with At ms => Some (now - ms)%Z | InvalidDate => None end in
      let diffDays := floor_div diffMs (1000 * 60 * 60 * 24) in
      if num_lt diffDays 7 then counted diffDays (str "day")
      else if num_lt diffDays 30 then
        counted (floor_div diffDays 7) (str "week")
      else if num_lt diffDays 365 then
        counted (floor_div diffDays 30) (str "month")
      else counted (floor_div diffDays 365) (str "year")
  end.

(** ** formatGoalsForPrompt (lines 345-354) *)

(** A goal of a letter; a field that is not set reads as [undefined]. *)
Record Goal : Type := {
  goal_text : option jsstring;
  goal_status : option jsstring
}.

Definition is_pending (status : option jsstring) : bool :=
  match status with
  | Some s => jsstring_eqb s (str "pending")
  | None => false
  end.

(** The callback of [goals.map]. *)
Definition goalLine (g : Goal) : jsstring :=
  let status :=
    if is_pending (goal_status g) then []
    else str " (" ++ to_string (goal_status g) ++ str ")" in
  str "- " ++ to_string (goal_text g) ++ status.

Definition GOALS_HEADER : jsstring := str "Goals set in this letter:".

Definition formatGoalsForPrompt (goals : option (list Goal)) : jsstring :=
  match goals with
  | None | Some [] => []
  | Some gs => GOALS_HEADER ++ [LF] ++ join LF (map goalLine gs)
  end.

(** ** formatStatsForAffirmation (lines 372-387) *)


Section StatsRendering.

(** What the runtime makes of a statistic, whatever value it is: the
    comparisons [v > 0] and [v !== 1], and the text of [v] in a template
    literal. *)
Variable positive : jsval -> bool.
Variable not_one : jsval -> bool.
Variable show : jsval -> jsstring.






End StatsRendering.

(** ** extractThemes (lines 393-432) *)

(** The ten [if] statements, in their order: the three keywords looked
    for, and the theme pushed when one of them is found. *)
Definition THEME_RULES : list (list jsstring * jsstring) :=
  [ ([str "goal"; str "achieve"; str "accomplish"], str "goals and aspirations");
    ([str "work"; str "career"; str "job"], str "career");
    ([str "family"; str "relationship"; str "friend"], str "relationships");
    ([str "health"; str "exercise"; str "fitness"], str "health and wellness");
    ([str "happy"; str "joy"; str "excited"], str "happiness");
    ([str "stress"; str "anxious"; str "worried"], str "managing stress");
    ([str "learn"; str "grow"; str "improve"], str "personal growth");
    ([str "focus"; str "productive"; str "discipline"],
     str "focus and productivity");
    ([str "grateful"; str "thankful"; str "appreciate"], str "gratitude");
    ([str "love"; str "partner"; str "dating"], str "love life") ].

(** The condition of one [if]: some keyword occurs in the content. *)
Definition mentions (lowerContent : jsstring) (rule : list jsstring * jsstring)
  : bool :=
  existsb (fun keyword => includes keyword lowerContent) (fst rule).

(** The array [themes] after the ten statements. *)
Definition detectedThemes (lowerContent : jsstring) : list jsstring :=
  map snd (filter (mentions lowerContent) THEME_RULES).

Section ExtractThemes.

(** [String.prototype.toLowerCase], which follows the Unicode case
    mappings of the runtime. *)
Variable toLowerCase : jsstring -> jsstring.

Definition extractThemes (content : option jsstring) : jsstring :=
  match content with
  | None | Some [] => str "personal reflection"
  | Some c =>
      let themes := detectedThemes (toLowerCase c) in
      if (0 <? length themes)%nat
      then joinWith (str ", ") (slice0 3 themes)
      else str "self-reflection and personal thoughts"
  end.

End ExtractThemes.

End Helpers.

(* ================================================================== *)
(** * models/user.js *)
(* ================================================================== *)

Module UserModel.
Import JS.

(** [delete object.key] on the plain object handed to a transform. *)
Definition delete_property (key : jsstring) (fields : list (jsstring * jsval))
  : list (jsstring * jsval) :=
  filter (fun kv => negb (jsstring_eqb key (fst kv))) fields.

(** The [toJSON] transform of the user schema (lines 24-28): it edits
    [returnedObject] in place and returns nothing, so the edited object is
    what gets serialized. *)
Definition toJSON_transform (returnedObject : list (jsstring * jsval))
  : list (jsstring * jsval) :=
  delete_property (str "hashedPassword") returnedObject.

End UserModel.

(* ================================================================== *)
(** * The string pipelines, read as list functions *)
(* ================================================================== *)

(** The replacements of the source are regular-expression scans; the
    properties below are stated on these readings, each proved equal to
    the scan it stands for. *)
Module Readings.
Import JS Service.

(** A blank string has white space only. *)
Definition blank (s : jsstring) : bool := forallb is_whitespace s.

(** Whether [s] starts with the unit [c]. *)
Definition head_is (c : code_unit) (s : jsstring) : bool :=
  match s with
  | x :: _ => cu_eqb x c
  | [] => false
  end.

(** Whether [s] has three line feeds in a row somewhere. *)
Fixpoint has_newlines3 (s : jsstring) : bool :=
  match s with
  | [] => false
  | c :: r =>
      (cu_eqb c LF && head_is LF r && head_is LF (tl r)) || has_newlines3 r
  end.

(** The third replacement of [sanitizeForPrompt]. *)
Definition collapse (s : jsstring) : jsstring :=
  replace_all match_newlines3 [LF; LF] s.

(** The length limit in force. *)
Definition limit (maxLength : option Z) : Z :=
  match maxLength with Some n => n | None => 2000%Z end.

(** The pipeline of [sanitizeForPrompt] on a non-empty text, with its
    three replacements read as a map, a filter and [collapse]. *)
Definition pipeline (n : Z) (s : jsstring) : jsstring :=
  trim
    (collapse
       (filter (fun c => negb (cu_eqb BACKSLASH c))
          (map (fun c => if cu_eqb DQUOTE c then SQUOTE else c)
             (substring0 n s)))).

(** A sentence body: no full stop, exclamation mark or question mark. *)
Definition plain (body : jsstring) : Prop :=
  ~ In QMARK body /\ ~ In DOT body /\ ~ In BANG body.

(** After a sentence end: empty, or ending in a full stop or an
    exclamation mark. *)
Definition sentence_end (pre : jsstring) : Prop :=
  pre = [] \/ exists pre' d, pre = pre' ++ [d] /\ (d = DOT \/ d = BANG).

(** A numeric raw count, in the words of the specification: the text,
    white space around it apart, is a numeral: an optional sign, one or
    more digits and, optionally, a point followed by digits. *)
Definition isNumeric (s : jsstring) : bool :=
  let t := trim s in
  let u := match t with
           | c :: r => if cu_eqb c 45%N || cu_eqb c 43%N then r else t
           | [] => []
           end in
  negb (length (takeWhile is_digit u) =? 0)%nat
  && match dropWhile is_digit u with
     | [] => true
     | c :: f => cu_eqb c DOT && forallb is_digit f
     end.

(** A raw count that is absent or not numeric. *)
Definition absentOrNonNumeric (count : option jsstring) : bool :=
  match count with
  | None => true
  | Some s => negb (isNumeric s)
  end.

(** The two quote characters. *)
Definition is_quote (c : code_unit) : bool :=
  cu_eqb c DQUOTE || cu_eqb c SQUOTE.

(** The cleaning of a matched question: leading units that are not
    letters dropped, quotes deleted, white space trimmed. *)
Definition cleanQuestion (m : jsstring) : jsstring :=
  trim (filter (fun c => negb (is_quote c))
          (dropWhile (fun c => negb (is_letter c)) m)).

End Readings.

(* ================================================================== *)
(** * Predicates used to state further properties *)
(* ================================================================== *)

Module Observations.
Import JS Effects Service Controller Helpers Readings.

(** A string without white space at either end. *)
Definition trimmed (s : jsstring) : Prop :=
  (forall c r, s = c :: r -> is_whitespace c = false)
  /\ (forall r c, s = r ++ [c] -> is_whitespace c = false).

(** The state after one more call to the provider. *)
Definition bump (st : State) : State :=
  {| provider_calls := S (provider_calls st) |}.

(** Two providers that answer alike to the requests satisfying [P]. *)
Definition agree_on (P : Request -> Prop)
           (p1 p2 : nat -> Request -> ProviderOutcome) : Prop :=
  forall n request, P request -> p1 n request = p2 n request.

(** The requests [generate] may send: a prompt that is a string and not
    blank, and the default [topP] and [topK]. *)
Definition freeformSent (request : Request) : Prop :=
  exists m s config,
    request = FreeformRequest m (VStr s) config
    /\ blank s = false
    /\ config_topP config = VNum 0.95%Q
    /\ config_topK config = VNum 40%Q.

(** The requests [getWritingPrompts] may send: the caller's mood and
    theme, and a count from 1 to 5. *)
Definition writingSent (mood theme : jsval) (request : Request) : Prop :=
  exists n, request = WritingPromptsRequest mood theme n /\ (1 <= n <= 5)%Z.

(** The requests [getReflectionPrompt] may send: the letter the store
    returned, delivered and with content, and a title of at most 100
    units without double quote or backslash. *)
Definition reflectionSent (getLetterById : jsval -> jsval -> result thrown Letter)
           (user : User) (letterId : jsval) (request : Request) : Prop :=
  exists t letter,
    request = ReflectionRequest t letter
    /\ getLetterById (user_id user) letterId = Ok letter
    /\ isDelivered letter = true
    /\ has_content letter = true
    /\ (length t <= 100)%nat
    /\ ~ In DQUOTE t /\ ~ In BACKSLASH t.

(** Whether a result is a value. *)
Definition is_ok {E A} (r : result E A) : bool :=
  match r with Ok _ => true | Err _ => false end.

(** A run that made no call or one call, and one call if it returned. *)
Definition at_most_one_call {A} (run : result thrown A * State) (st : State)
  : Prop :=
  (snd run = st /\ is_ok (fst run) = false) \/ snd run = bump st.

(** Milliseconds in a day. *)
Definition MS_PER_DAY : Z := (1000 * 60 * 60 * 24)%Z.

(** A goal field without a line feed. *)
Definition single_line (t : option jsstring) : Prop := ~ In LF (to_string t).

(** [l1] is [l2] with some elements left out. *)
Inductive subsequence (A : Type) : list A -> list A -> Prop :=
| subsequence_nil : subsequence [] []
| subsequence_keep x l1 l2 : subsequence l1 l2 -> subsequence (x :: l1) (x :: l2)
| subsequence_skip x l1 l2 : subsequence l1 l2 -> subsequence l1 (x :: l2).

(** The ten theme labels, in the order of the rules. *)
Definition THEME_LABELS : list jsstring := map snd THEME_RULES.

(** The requests [getAffirmation] may send: the caller's time of day and
    statistics, and the name, or the username when the name is empty. *)
Definition affirmationSent (user : User) (tod : jsval) (request : Request)
  : Prop :=
  exists options,
    request = AffirmationRequest options
    /\ timeOfDay options = tod
    /\ stats options = user_stats user
    /\ (if truthy (user_name user)
        then username options = user_name user
        else username options = user_username user).

End Observations.

(* ================================================================== *)
(** * Sample data *)
(* ================================================================== *)

Module Samples.
Import JS Effects Service Controller.

Definition initial : State := {| provider_calls := 0 |}.

(** A provider that answers every request with no text at all. *)
Definition silentResponse : Response :=
  {| text := None; finishReason := VUndefined;
     usageMetadata := VUndefined; safetyRatings := VUndefined |}.

Definition silentProvider (n : nat) (request : Request) : ProviderOutcome :=
  Resolved silentResponse.

(** A provider that answers every request with the same plain text. *)
Definition chattyProvider (t : jsstring) (n : nat) (request : Request)
  : ProviderOutcome :=
  Resolved {| text := Some t; finishReason := VStr (str "STOP");
              usageMetadata := VUndefined; safetyRatings := VUndefined |}.

Definition rateLimited : ProviderError :=
  {| status := Some 429%Z; message := Some (str "quota exhausted") |}.

Definition failingProvider (n : nat) (request : Request) : ProviderOutcome :=
  Rejected rateLimited.

Definition pendingLetter : Letter :=
  {| _id := VStr (str "letter-1");
     title := Some (str "To me");
     content := Some (str "I hope work is going well.");
     mood := VUndefined; goals := VUndefined; createdAt := VUndefined;
     isDelivered := false |}.

Definition deliveredLetter : Letter :=
  {| _id := VStr (str "letter-2");
     title := Some (str "To me");
     content := Some (str "I hope work is going well.");
     mood := VUndefined; goals := VUndefined; createdAt := VUndefined;
     isDelivered := true |}.

Definition store (userId letterId : jsval) : result thrown Letter :=
  match letterId with
  | VStr [] | VStr [_] => Ok pendingLetter
  | _ => Ok deliveredLetter
  end.

Definition writer : User :=
  {| user_id := VStr (str "user-1"); user_name := VUndefined;
     user_username := VStr (str "sam"); user_stats := VUndefined |}.

Definition noOptions : WritingOptions :=
  {| w_mood := VUndefined; w_theme := VUndefined; w_count := None |}.

Definition noAffirmationOptions : AffirmationOptions :=
  {| username := VUndefined; timeOfDay := VUndefined; stats := VUndefined |}.

(** The text of the writing-prompt example of the spec. *)
Definition threeLines : jsstring :=
  str "a" ++ [LF] ++ str "Short" ++ [LF]
      ++ str "This is a valid prompt line" ++ [LF].

End Samples.

(* ================================================================== *)
(** * More sample data *)
(* ================================================================== *)

Module MoreSamples.
Import JS Effects Service Controller Helpers.

Definition plainResponse (t : jsstring) : Response :=
  {| text := Some t; finishReason := VStr (str "STOP");
     usageMetadata := VUndefined; safetyRatings := VUndefined |}.

(** Providers that answer only the requests an action is allowed to send. *)
Definition freeformOnly (n : nat) (request : Request) : ProviderOutcome :=
  match request with
  | FreeformRequest _ (VStr _) _ => Resolved Samples.silentResponse
  | _ => Rejected Samples.rateLimited
  end.

Definition smallCountsOnly (n : nat) (request : Request) : ProviderOutcome :=
  match request with
  | WritingPromptsRequest _ _ c =>
      if ((1 <=? c) && (c <=? 5))%Z then Resolved Samples.silentResponse
      else Rejected Samples.rateLimited
  | _ => Rejected Samples.rateLimited
  end.

Definition deliveredOnly (n : nat) (request : Request) : ProviderOutcome :=
  match request with
  | ReflectionRequest _ letter =>
      if isDelivered letter then Resolved Samples.silentResponse
      else Rejected Samples.rateLimited
  | _ => Rejected Samples.rateLimited
  end.

Definition affirmationOnly (n : nat) (request : Request) : ProviderOutcome :=
  match request with
  | AffirmationRequest _ => Resolved Samples.silentResponse
  | _ => Rejected Samples.rateLimited
  end.

Definition helloBody : GenerateBody :=
  {| body_prompt := VStr (str "Hello");
     body_systemInstruction := VUndefined; body_model := VUndefined;
     body_temperature := VUndefined; body_maxOutputTokens := VUndefined |}.

Definition emptyLetter : Letter :=
  {| _id := VStr (str "letter-3"); title := None; content := Some [];
     mood := VUndefined; goals := VUndefined; createdAt := VUndefined;
     isDelivered := true |}.

Definition emptyStore (userId letterId : jsval) : result thrown Letter :=
  Ok emptyLetter.

Definition twoGoals : list Goal :=
  [ {| goal_text := Some (str "Run a marathon");
       goal_status := Some (str "pending") |};
    {| goal_text := Some (str "Read more");
       goal_status := Some (str "accomplished") |} ].






Definition storedUser : list (jsstring * jsval) :=
  [ (str "username", VStr (str "sam"));
    (str "hashedPassword", VStr (str "$2b$12$abc"));
    (str "name", VStr []) ].

End MoreSamples.

(* ================================================================== *)
(** * Properties of the string primitives *)
(* ================================================================== *)

Module StringProps.
Import JS Service Readings.
#[local] Arguments cu_eqb : simpl never.

Section Lists.
Variable A : Type.
Variable p : A -> bool.

Lemma takeWhile_dropWhile (l : list A) :
  l = takeWhile p l ++ dropWhile p l.
Proof.
  induction l as [|x l IH]; simpl; [reflexivity|].
  destruct (p x); simpl; [now rewrite <- IH|reflexivity].
Qed.

Lemma dropWhile_suffix (l : list A) : exists a, l = a ++ dropWhile p l.
Proof. exists (takeWhile p l). apply takeWhile_dropWhile. Qed.

Lemma dropWhileEnd_prefix (l : list A) : exists b, l = dropWhileEnd p l ++ b.
Proof.
  induction l as [|x l [b IH]]; simpl; [now exists []|].
  destruct (dropWhileEnd p l) as [|y r] eqn:E.
  - destruct (p x).
    + now exists (x :: l).
    + exists l. reflexivity.
  - exists b. simpl. now rewrite IH at 1.
Qed.

Lemma dropWhile_fixed (l : list A) :
  match l with x :: _ => p x = false | [] => True end ->
  dropWhile p l = l.
Proof. destruct l as [|x l]; simpl; [reflexivity|]. now intros ->. Qed.

Lemma dropWhile_head (l : list A) :
  match dropWhile p l with x :: _ => p x = false | [] => True end.
Proof.
  induction l as [|x l IH]; simpl; [exact I|].
  destruct (p x) eqn:E; [exact IH|exact E].
Qed.

Lemma dropWhileEnd_keeps_head x (l : list A) :
  p x = false -> exists r, dropWhileEnd p (x :: l) = x :: r.
Proof.
  intros H. simpl. destruct (dropWhileEnd p l); [|eauto].
  rewrite H. eauto.
Qed.

Lemma dropWhileEnd_idempotent (l : list A) :
  dropWhileEnd p (dropWhileEnd p l) = dropWhileEnd p l.
Proof.
  induction l as [|x l IH]; simpl; [reflexivity|].
  destruct (dropWhileEnd p l) as [|y r] eqn:E.
  - destruct (p x) eqn:Px; simpl; [reflexivity|]. now rewrite Px.
  - simpl. simpl in IH. now rewrite IH.
Qed.
End Lists.

Lemma trim_infix (s : jsstring) : exists a b, s = a ++ trim s ++ b.
Proof.
  unfold trim, trimStart, trimEnd.
  destruct (dropWhile_suffix is_whitespace s) as [a Ha].
  destruct (dropWhileEnd_prefix is_whitespace (dropWhile is_whitespace s))
    as [b Hb].
  exists a, b. now rewrite <- Hb.
Qed.

Lemma trim_idempotent (s : jsstring) : trim (trim s) = trim s.
Proof.
  unfold trim, trimStart, trimEnd.
  pose proof (dropWhile_head is_whitespace s) as H.
  destruct (dropWhile is_whitespace s) as [|x l] eqn:E; [reflexivity|].
  destruct (dropWhileEnd_keeps_head is_whitespace x l H) as [r Hr].
  rewrite Hr. rewrite dropWhile_fixed by exact H.
  rewrite <- Hr. apply dropWhileEnd_idempotent.
Qed.

Lemma trim_in (s : jsstring) x : In x (trim s) -> In x s.
Proof.
  destruct (trim_infix s) as (a & b & E). intros H. rewrite E.
  apply in_or_app. right. apply in_or_app. now left.
Qed.

Lemma trim_length (s : jsstring) : (length (trim s) <= length s)%nat.
Proof.
  destruct (trim_infix s) as (a & b & E). rewrite E at 2.
  rewrite !length_app. lia.
Qed.

Lemma dropWhile_all A (p : A -> bool) (l : list A) :
  forallb p l = true -> dropWhile p l = [].
Proof.
  induction l as [|x l IH]; simpl; [reflexivity|].
  destruct (p x); simpl; [exact IH|discriminate].
Qed.

Lemma dropWhile_nil_all A (p : A -> bool) (l : list A) :
  dropWhile p l = [] -> forallb p l = true.
Proof.
  induction l as [|x l IH]; simpl; [reflexivity|].
  destruct (p x); simpl; [exact IH|discriminate].
Qed.

Lemma dropWhileEnd_nil_all A (p : A -> bool) (l : list A) :
  dropWhileEnd p l = [] -> forallb p l = true.
Proof.
  induction l as [|x l IH]; simpl; [reflexivity|].
  destruct (dropWhileEnd p l) as [|y r]; [|discriminate].
  destruct (p x); [intros _; now apply IH|discriminate].
Qed.

Lemma dropWhile_head_false A (p : A -> bool) (l : list A) x r :
  dropWhile p l = x :: r -> p x = false.
Proof.
  induction l as [|y l IH]; simpl; [discriminate|].
  destruct (p y) eqn:E; [exact IH|]. intros [= -> _]. exact E.
Qed.

(** [s.trim()] is empty exactly when [s] is blank. *)
Lemma trim_blank (s : jsstring) : blank s = true <-> trim s = [].
Proof.
  unfold blank, trim, trimStart, trimEnd. split.
  - intros H. now rewrite dropWhile_all.
  - intros H. apply dropWhileEnd_nil_all in H.
    destruct (dropWhile is_whitespace s) as [|x r] eqn:E.
    + now apply dropWhile_nil_all.
    + apply dropWhile_head_false in E. simpl in H. now rewrite E in H.
Qed.

Lemma cu_eqb_eq a b : cu_eqb a b = true <-> a = b.
Proof. apply N.eqb_eq. Qed.

Lemma cu_eqb_refl a : cu_eqb a a = true.
Proof. apply N.eqb_refl. Qed.

Lemma cu_eqb_sym a b : cu_eqb a b = cu_eqb b a.
Proof. apply N.eqb_sym. Qed.

Lemma replace_class_delete p (s : jsstring) :
  replace_all (match_class p) [] s = filter (fun c => negb (p c)) s.
Proof.
  unfold replace_all.
  induction s as [|c r IH]; simpl; [reflexivity|].
  destruct (p c); simpl; now rewrite IH.
Qed.

Lemma replace_class_subst p d (s : jsstring) :
  replace_all (match_class p) [d] s = map (fun c => if p c then d else c) s.
Proof.
  unfold replace_all.
  induction s as [|c r IH]; simpl; [reflexivity|].
  destruct (p c); simpl; now rewrite IH.
Qed.

Lemma replace_from_skip m rep (a b : jsstring) :
  replace_from m rep (length a) (a ++ b) = replace_from m rep 0 b.
Proof. induction a as [|c a IH]; simpl; [reflexivity|exact IH]. Qed.


Lemma takeWhile_run k rest :
  head_is LF rest = false ->
  takeWhile (cu_eqb LF) (repeat LF k ++ rest) = repeat LF k.
Proof.
  intros H. induction k as [|k IH]; simpl.
  - destruct rest as [|x r]; [reflexivity|]. simpl in *.
    rewrite cu_eqb_sym. now rewrite H.
  - now rewrite IH.
Qed.


(** Every string is empty, starts with a unit other than a line feed, or
    starts with a maximal run of line feeds. *)
Lemma run_decomposition (s : jsstring) :
  s = repeat LF (length (takeWhile (cu_eqb LF) s)) ++ dropWhile (cu_eqb LF) s
  /\ head_is LF (dropWhile (cu_eqb LF) s) = false.
Proof.
  induction s as [|c r [IH1 IH2]]; simpl; [now split|].
  destruct (cu_eqb LF c) eqn:E; simpl.
  - apply cu_eqb_eq in E. subst c. split; [now rewrite <- IH1|exact IH2].
  - split; [reflexivity|]. now rewrite cu_eqb_sym.
Qed.

Lemma run_ind (P : jsstring -> Prop) :
  P [] ->
  (forall c r, cu_eqb c LF = false -> P r -> P (c :: r)) ->
  (forall k rest, head_is LF rest = false -> P rest ->
                  P (repeat LF (S k) ++ rest)) ->
  forall s, P s.
Proof.
  intros Hnil Hother Hrun s.
  remember (length s) as n eqn:Hn. revert s Hn.
  induction n as [n IH] using lt_wf_ind. intros s Hn.
  destruct s as [|c r]; [exact Hnil|].
  destruct (cu_eqb c LF) eqn:E.
  - destruct (run_decomposition (c :: r)) as [D1 D2].
    simpl in D1, D2. rewrite cu_eqb_sym in E. rewrite E in D1, D2.
    simpl in D1. rewrite D1.
    apply (Hrun (length (takeWhile (cu_eqb LF) r))); [exact D2|].
    apply (IH (length (dropWhile (cu_eqb LF) r))); [|reflexivity].
    subst n. simpl.
    pose proof (takeWhile_dropWhile (cu_eqb LF) r) as T.
    rewrite T at 2. rewrite length_app. lia.
  - apply Hother; [exact E|]. apply (IH (length r)); [subst n; simpl; lia|reflexivity].
Qed.

Lemma collapse_other c r :
  cu_eqb c LF = false -> collapse (c :: r) = c :: collapse r.
Proof.
  intros H. unfold collapse, replace_all. simpl.
  unfold match_newlines3. simpl. rewrite cu_eqb_sym, H.
  reflexivity.
Qed.

Lemma collapse_run k rest :
  head_is LF rest = false ->
  collapse (repeat LF (S k) ++ rest)
  = repeat LF (Nat.min (S k) 2) ++ collapse rest.
Proof.
  intros H. unfold collapse, replace_all.
  assert (T0 : takeWhile (cu_eqb LF) rest = []).
  { apply (takeWhile_run 0 rest H). }
  destruct k as [|[|k]].
  - simpl. unfold match_newlines3. simpl. now rewrite T0.
  - simpl. unfold match_newlines3. simpl. now rewrite T0.
  - change (repeat LF (S (S (S k))) ++ rest)
      with (LF :: (repeat LF (S (S k)) ++ rest)).
    cbn [replace_from]. unfold match_newlines3.
    change (LF :: (repeat LF (S (S k)) ++ rest))
      with (repeat LF (S (S (S k))) ++ rest).
    rewrite takeWhile_run by exact H. rewrite repeat_length.
    cbn [Nat.leb]. 
    rewrite <- (repeat_length LF (S (S k))) at 1.
    rewrite replace_from_skip. reflexivity.
Qed.

Lemma collapse_head (s : jsstring) :
  head_is LF s = false -> head_is LF (collapse s) = false.
Proof.
  destruct s as [|c r]; [reflexivity|]. simpl. intros H.
  now rewrite collapse_other.
Qed.

Lemma has_newlines3_run k rest :
  (k <= 2)%nat -> head_is LF rest = false ->
  has_newlines3 (repeat LF k ++ rest) = has_newlines3 rest.
Proof.
  intros K H. destruct rest as [|x r].
  - destruct k as [|[|[|k]]]; try lia; reflexivity.
  - simpl in H.
    destruct k as [|[|[|k]]]; try lia; simpl; rewrite ?cu_eqb_refl, ?H;
      simpl; rewrite ?andb_false_r; reflexivity.
Qed.

Lemma collapse_no_newlines3 (s : jsstring) : has_newlines3 (collapse s) = false.
Proof.
  induction s as [| c r H IH | k rest H IH] using run_ind.
  - reflexivity.
  - rewrite collapse_other by exact H. simpl. now rewrite H, IH.
  - rewrite collapse_run by exact H.
    rewrite has_newlines3_run; [exact IH|lia|now apply collapse_head].
Qed.

Lemma collapse_length (s : jsstring) : (length (collapse s) <= length s)%nat.
Proof.
  induction s as [| c r H IH | k rest H IH] using run_ind.
  - apply Nat.le_refl.
  - rewrite collapse_other by exact H. simpl. lia.
  - rewrite collapse_run by exact H. rewrite !length_app, !repeat_length. lia.
Qed.

Lemma collapse_in (s : jsstring) x : In x (collapse s) -> In x s.
Proof.
  induction s as [| c r H IH | k rest H IH] using run_ind.
  - auto.
  - rewrite collapse_other by exact H. simpl. tauto.
  - rewrite collapse_run by exact H. intros I.
    apply in_app_or in I. apply in_or_app. destruct I as [I|I]; [left|auto].
    apply repeat_spec in I. subst x. now left.
Qed.

Lemma collapse_fixed (s : jsstring) :
  has_newlines3 s = false -> collapse s = s.
Proof.
  induction s as [| c r H IH | k rest H IH] using run_ind.
  - reflexivity.
  - rewrite collapse_other by exact H. simpl. rewrite H. simpl.
    intros N. now rewrite IH.
  - intros N. rewrite collapse_run by exact H.
    destruct k as [|[|k]].
    + rewrite has_newlines3_run in N by (lia || exact H). simpl. now rewrite IH.
    + rewrite has_newlines3_run in N by (lia || exact H). simpl. now rewrite IH.
    + simpl in N. discriminate.
Qed.

Lemma has_newlines3_tail c (s : jsstring) :
  has_newlines3 (c :: s) = false -> has_newlines3 s = false.
Proof. simpl. intros H. now apply orb_false_elim in H. Qed.

Lemma has_newlines3_suffix (a b : jsstring) :
  has_newlines3 (a ++ b) = false -> has_newlines3 b = false.
Proof.
  induction a as [|c a IH]; [auto|]. intros H. apply IH.
  now apply has_newlines3_tail with c.
Qed.

Lemma head_is_app c (a b : jsstring) :
  head_is c a = true -> head_is c (a ++ b) = true.
Proof. destruct a; [discriminate|auto]. Qed.

Lemma has_newlines3_prefix (a b : jsstring) :
  has_newlines3 (a ++ b) = false -> has_newlines3 a = false.
Proof.
  induction a as [|c a IH]; [reflexivity|]. simpl. intros H.
  apply orb_false_elim in H. destruct H as [H1 H2].
  rewrite (IH H2), orb_false_r.
  destruct (cu_eqb c LF); [|reflexivity]. simpl in *.
  destruct (head_is LF a) eqn:E1; [|reflexivity].
  rewrite (head_is_app _ _ b E1) in H1. simpl in *.
  destruct (head_is LF (tl a)) eqn:E2; [|reflexivity].
  destruct a as [|y a]; [discriminate|]. simpl in *.
  now rewrite (head_is_app _ _ b E2) in H1.
Qed.

Lemma trim_no_newlines3 (s : jsstring) :
  has_newlines3 s = false -> has_newlines3 (trim s) = false.
Proof.
  destruct (trim_infix s) as (a & b & E). intros H. rewrite E in H.
  apply has_newlines3_suffix in H. now apply has_newlines3_prefix in H.
Qed.

End StringProps.

(* ================================================================== *)
(** * Properties of the provider gateway *)
(* ================================================================== *)

Module GatewayProps.
Import JS Effects Effects.Notations Service Controller.

Lemma starts_with_app (p s : jsstring) : starts_with p (p ++ s) = true.
Proof.
  induction p as [|c p IH]; simpl; [reflexivity|].
  unfold cu_eqb. now rewrite N.eqb_refl.
Qed.

(** The error of every branch is an [AIServiceError]. *)
Lemma gatewayError_class (error : ProviderError) :
  exists msg cause, gatewayError error = AIServiceError msg cause.
Proof.
  unfold gatewayError.
  destruct (status_is error 429); [eauto|].
  destruct (status_is error 400); [eauto|].
  destruct (status_is error 401 || status_is error 403); eauto.
Qed.

Lemma gatewayError_kind (error : ProviderError) :
  kind (gatewayError error) = Some (kindOfStatus (status error)).
Proof.
  unfold gatewayError, status_is, kindOfStatus.
  destruct (status error) as [s|].
  - destruct (s =? 429)%Z; [reflexivity|].
    destruct (s =? 400)%Z; [now vm_compute|].
    destruct ((s =? 401)%Z || (s =? 403)%Z); now vm_compute.
  - now vm_compute.
Qed.

(** A failed call never yields a value: the failure is rethrown, mapped. *)
Lemma callGeminiAPI_rejected A (apiCall : M ProviderError A) st st' error :
  apiCall st = (Err error, st') ->
  callGeminiAPI apiCall st = (Err (gatewayError error), st').
Proof.
  intros H. unfold callGeminiAPI, try_catch. now rewrite H.
Qed.

Lemma callGeminiAPI_resolved A (apiCall : M ProviderError A) st st' a :
  apiCall st = (Ok a, st') -> callGeminiAPI apiCall st = (Ok a, st').
Proof.
  intros H. unfold callGeminiAPI, try_catch. now rewrite H.
Qed.

Section OneCall.
Variable provider : nat -> Request -> ProviderOutcome.

Lemma gateway_call_rejected st request error :
  provider (provider_calls st) request = Rejected error ->
  callGeminiAPI (models_generateContent provider request) st
  = (Err (gatewayError error), {| provider_calls := S (provider_calls st) |}).
Proof.
  intros H. apply callGeminiAPI_rejected.
  unfold models_generateContent. now rewrite H.
Qed.

Lemma gateway_call_resolved st request response :
  provider (provider_calls st) request = Resolved response ->
  callGeminiAPI (models_generateContent provider request) st
  = (Ok response, {| provider_calls := S (provider_calls st) |}).
Proof.
  intros H. apply callGeminiAPI_resolved.
  unfold models_generateContent. now rewrite H.
Qed.
End OneCall.

(** The branches for 429, 401, 403 and the catch-all pass the caught
    failure on as the cause. *)
Lemma gatewayError_keeps_cause (error : ProviderError) :
  status error <> Some 400%Z ->
  exists msg, gatewayError error = AIServiceError msg (Some error).
Proof.
  intros H. unfold gatewayError, status_is.
  destruct (status error) as [s|].
  - destruct (s =? 429)%Z; [eauto|].
    destruct (Z.eqb_spec s 400); [congruence|].
    destruct ((s =? 401)%Z || (s =? 403)%Z); eauto.
  - simpl. eauto.
Qed.

(** C9.  On a malformed-request status (400) the error raised by the
    gateway carries no cause: the original failure is not passed to the
    constructor in that branch, only its message is appended. *)
Theorem gateway_bad_request_drops_cause (msg : option jsstring) :
  gatewayError {| status := Some 400%Z; message := msg |}
  = AIServiceError (MSG_BAD_REQUEST ++ to_string msg) None.
Proof. reflexivity. Qed.

End GatewayProps.

(* ================================================================== *)
(** * Properties of the sampling configuration and of the count *)
(* ================================================================== *)

Module ConfigProps.
Import JS Effects Service Controller.
#[local] Open Scope Q_scope.

(** [topP] and [topK] are merged with [??]: the override wins unless it
    is [undefined] or [null], zero included. *)
Lemma config_topP_merge (options : Options) :
  config_topP (buildGenerationConfig options)
  = if nullish (topP options) then VNum 0.95 else topP options.
Proof. reflexivity. Qed.

Lemma config_topK_merge (options : Options) :
  config_topK (buildGenerationConfig options)
  = if nullish (topK options) then VNum 40 else topK options.
Proof. reflexivity. Qed.

(** [temperature] and [maxOutputTokens] are merged with [||]: the
    override wins only when it is truthy. *)
Lemma config_temperature_merge (options : Options) :
  config_temperature (buildGenerationConfig options)
  = if truthy (temperature options) then temperature options else VNum 0.7.
Proof. reflexivity. Qed.

Lemma config_maxOutputTokens_merge (options : Options) :
  config_maxOutputTokens (buildGenerationConfig options)
  = if truthy (maxOutputTokens options)
    then maxOutputTokens options else VNum 2048.
Proof. reflexivity. Qed.

(** C4.  An override of [temperature] that is present, not null and equal
    to 0 is not kept: the merged configuration has the default 0.7, while
    the same override of [topP] is kept as 0. *)
Theorem buildGenerationConfig_temperature_zero
        (si m mot k : jsval) :
  let options := {| systemInstruction := si; model := m;
                    temperature := VNum 0; maxOutputTokens := mot;
                    topP := VNum 0; topK := k |} in
  config_temperature (buildGenerationConfig options) = VNum 0.7
  /\ config_temperature (buildGenerationConfig options) <> temperature options
  /\ config_topP (buildGenerationConfig options) = VNum 0.
Proof.
  intros options. repeat split. discriminate.
Qed.

(** The clamp leaves a count between 1 and 5. *)
Lemma promptCount_range (count : option jsstring) :
  (1 <= promptCount count <= 5)%Z.
Proof.
  unfold promptCount, number_or.
  destruct (parseInt10 (to_string count)) as [n|].
  - destruct (Z.eqb_spec n 0).
    + now vm_compute.
    + destruct (Z.ltb_spec n 1).
      * now vm_compute.
      * rewrite Z.gtb_ltb. destruct (Z.ltb_spec 5 n); lia.
  - now vm_compute.
Qed.

Lemma promptCount_NaN (count : option jsstring) :
  parseInt10 (to_string count) = None -> promptCount count = 3%Z.
Proof. unfold promptCount. now intros ->. Qed.

Lemma parseInt10_no_integer (s : jsstring) :
  leadingInteger s = false -> parseInt10 s = None.
Proof.
  unfold leadingInteger, parseInt10, cu_eqb.
  destruct (trimStart s) as [|c r]; [reflexivity|].
  destruct (c =? 45)%N; simpl.
  - destruct r as [|d r']; [reflexivity|]. simpl. now intros ->.
  - destruct (c =? 43)%N; simpl.
    + destruct r as [|d r']; [reflexivity|]. simpl. now intros ->.
    + now intros ->.
Qed.

(** A raw count that starts with an integer other than 0 gives that
    integer, clamped. *)
Lemma promptCount_integer (s : jsstring) (n : Z) :
  parseInt10 s = Some n -> n <> 0%Z ->
  promptCount (Some s) = Z.max 1 (Z.min 5 n).
Proof.
  intros H N. unfold promptCount, number_or. simpl to_string. rewrite H.
  destruct (Z.eqb_spec n 0); [contradiction|].
  destruct (Z.ltb_spec n 1).
  - change (1 >? 5)%Z with false. cbn iota. lia.
  - rewrite Z.gtb_ltb. destruct (Z.ltb_spec 5 n); lia.
Qed.

(** C5 (amended).  Whatever the raw count, the count used is between 1
    and 5.  A raw count that is absent, or at whose start [parseInt]
    finds no integer (no digit after optional white space and sign, as in
    abc), gives 3.  A raw count at whose start [parseInt] finds an
    integer other than 0 gives that integer clamped to 1..5, whatever
    follows the integer: the counts 4abc, 5 apples and 2,5 are not
    numeric and give 4, 5 and 2.  On the inputs 0, 1, 5, 6, abc and an
    absent count the counts are 3, 1, 5, 5, 3 and 3. *)
Theorem promptCount_clamped (count : option jsstring) :
  (1 <= promptCount count <= 5)%Z
  /\ (count = None -> promptCount count = 3%Z)
  /\ (forall s, count = Some s -> leadingInteger s = false ->
      promptCount count = 3%Z)
  /\ map promptCount
       [Some (str "0"); Some (str "1"); Some (str "5"); Some (str "6");
        Some (str "abc"); None]
     = [3; 1; 5; 5; 3; 3]%Z
  /\ (forall s n, count = Some s -> parseInt10 s = Some n -> n <> 0%Z ->
      promptCount count = Z.max 1 (Z.min 5 n))
  /\ map (fun s => (Readings.isNumeric s, promptCount (Some s)))
       [str "4abc"; str "5 apples"; str "2,5"]
     = [(false, 4%Z); (false, 5%Z); (false, 2%Z)].
Proof.
  split; [apply promptCount_range|].
  split; [now intros ->|].
  split.
  { intros s -> H. apply promptCount_NaN. simpl.
    now apply parseInt10_no_integer. }
  split; [now vm_compute|].
  split; [|now vm_compute].
  intros s n -> H N. now apply promptCount_integer.
Qed.

(** C5 as worded fails: the raw count 4abc is not numeric and the count
    used is 4, not 3; so it is not the case that every absent or
    non-numeric raw count gives 3. *)
Lemma promptCount_nonnumeric_counterexample :
  Readings.absentOrNonNumeric (Some (str "4abc")) = true
  /\ promptCount (Some (str "4abc")) = 4%Z
  /\ ~ (forall count,
          (1 <= promptCount count <= 5)%Z
          /\ (Readings.absentOrNonNumeric count = true -> promptCount count = 3%Z)).
Proof.
  split; [reflexivity|]. split; [reflexivity|].
  intros H. destruct (H (Some (str "4abc"))) as [_ E].
  specialize (E eq_refl). vm_compute in E. discriminate.
Qed.

Lemma promptCount_clamped_witness :
  leadingInteger (str "abc") = false /\ promptCount (Some (str "abc")) = 3%Z.
Proof.
  split; [reflexivity|].
  exact (proj1 (proj2 (proj2 (promptCount_clamped (Some (str "abc")))))
           (str "abc") eq_refl eq_refl).
Defined.

(** C10.  A raw count whose integer parse is 0 gives 3, the count of an
    absent parameter, and not the lower bound 1. *)
Theorem promptCount_zero_is_default (s : jsstring) :
  parseInt10 s = Some 0%Z ->
  promptCount (Some s) = 3%Z
  /\ promptCount (Some s) = promptCount None
  /\ promptCount (Some s) <> 1%Z.
Proof.
  intros H.
  assert (E : promptCount (Some s) = 3%Z).
  { unfold promptCount. simpl to_string. now rewrite H. }
  rewrite E. repeat split. discriminate.
Qed.

Lemma promptCount_zero_is_default_witness :
  parseInt10 (str "0") = Some 0%Z
  /\ promptCount (Some (str "0")) = 3%Z.
Proof.
  split; [reflexivity|].
  exact (proj1 (promptCount_zero_is_default (str "0") eq_refl)).
Defined.

End ConfigProps.

(* ================================================================== *)
(** * Properties of the entry points *)
(* ================================================================== *)

Module EntryProps.
Import JS Effects Effects.Notations Service Controller.
Import Readings StringProps GatewayProps.

Lemma validatePrompt_rejects (p : jsval) :
  (forall s, p = VStr s -> blank s = true) ->
  exists msg detail,
    validatePrompt p = Err (ValidationError msg [(str "prompt", detail)]).
Proof.
  intros H. destruct p; simpl; eauto.
  specialize (H s eq_refl). apply trim_blank in H. rewrite H. simpl. eauto.
Qed.

Lemma validatePrompt_accepts (s : jsstring) :
  blank s = false -> validatePrompt (VStr s) = Ok tt.
Proof.
  intros H. simpl. destruct (trim s) eqn:E; [|reflexivity].
  apply trim_blank in E. congruence.
Qed.

Section Entry.
Variable provider : nat -> Request -> ProviderOutcome.
Variable getLetterById : jsval -> jsval -> result thrown Letter.

(** *** Invalid requests *)

Lemma generateContent_invalid p options st :
  (forall s, p = VStr s -> blank s = true) ->
  exists msg detail,
    generateContent provider p options st
    = (Err (ValidationError msg [(str "prompt", detail)]), st).
Proof.
  intros H. destruct (validatePrompt_rejects H) as (msg & detail & E).
  exists msg, detail. unfold generateContent, bind, lift. now rewrite E.
Qed.

Lemma generate_invalid body st :
  (forall s, body_prompt body = VStr s -> blank s = true) ->
  exists msg detail,
    generate provider body st
    = (Err (ValidationError msg [(str "prompt", detail)]), st).
Proof.
  intros H.
  destruct (generateContent_invalid
              {| systemInstruction := body_systemInstruction body;
                 model := body_model body;
                 temperature := body_temperature body;
                 maxOutputTokens := body_maxOutputTokens body;
                 topP := VUndefined; topK := VUndefined |} st H)
    as (msg & detail & E).
  exists msg, detail. unfold generate, bind. now rewrite E.
Qed.

Lemma getReflectionPrompt_missing_id user letterId st :
  truthy letterId = false ->
  getReflectionPrompt provider getLetterById user letterId st
  = (Err (ValidationError (str "Letter ID is required")
            [(str "letterId", str "Please provide the letter ID")]), st).
Proof. intros H. unfold getReflectionPrompt. now rewrite H. Qed.

Lemma getReflectionPrompt_undelivered user letterId letter st :
  truthy letterId = true ->
  getLetterById (user_id user) letterId = Ok letter ->
  isDelivered letter = false ->
  getReflectionPrompt provider getLetterById user letterId st
  = (Err (ValidationError
            (str "Reflection prompts are only available for delivered letters")
            [(str "letterId", str "This letter has not been delivered yet")]),
     st).
Proof.
  intros H1 H2 H3. unfold getReflectionPrompt, bind, lift.
  now rewrite H1, H2, H3.
Qed.

(** C2.  An invalid request is answered with a Validation error that
    names the offending field, and leaves the state untouched, so that
    no call has reached the provider: a reflection request without a
    letter identifier, a reflection request whose letter is not
    delivered, and a freeform request whose prompt is not a string or is
    a blank one. *)
Theorem validation_before_provider (st : State) :
  (forall user letterId,
      truthy letterId = false ->
      exists msg detail,
        getReflectionPrompt provider getLetterById user letterId st
        = (Err (ValidationError msg [(str "letterId", detail)]), st))
  /\ (forall user letterId letter,
      getLetterById (user_id user) letterId = Ok letter ->
      isDelivered letter = false ->
      exists msg detail,
        getReflectionPrompt provider getLetterById user letterId st
        = (Err (ValidationError msg [(str "letterId", detail)]), st))
  /\ (forall body,
      (forall s, body_prompt body = VStr s -> blank s = true) ->
      exists msg detail,
        generate provider body st
        = (Err (ValidationError msg [(str "prompt", detail)]), st))
  /\ (forall p options,
      (forall s, p = VStr s -> blank s = true) ->
      exists msg detail,
        generateContent provider p options st
        = (Err (ValidationError msg [(str "prompt", detail)]), st)).
Proof.
  split; [|split; [|split]].
  - intros user letterId H. rewrite getReflectionPrompt_missing_id by exact H.
    eauto.
  - intros user letterId letter H1 H2.
    destruct (truthy letterId) eqn:T.
    + rewrite (getReflectionPrompt_undelivered user st T H1 H2). eauto.
    + rewrite getReflectionPrompt_missing_id by exact T. eauto.
  - intros body H. now apply generate_invalid.
  - intros p options H. now apply generateContent_invalid.
Qed.

(** *** Requests that reach a failing provider *)

Section Rejected.
Variable st : State.
Variable error : ProviderError.
Hypothesis rejected :
  forall request, provider (provider_calls st) request = Rejected error.

Lemma generateContent_rejected p options :
  exists e st', generateContent provider p options st = (Err e, st').
Proof.
  unfold generateContent, bind, lift.
  destruct (validatePrompt p); [|eauto].
  rewrite (gateway_call_rejected _ _ _ (rejected _)). eauto.
Qed.

Lemma generateReflectionPrompt_rejected letter :
  exists e st',
    generateReflectionPrompt provider letter st = (Err e, st').
Proof.
  unfold generateReflectionPrompt, bind, throw.
  destruct letter as [l|]; [|eauto].
  destruct (has_content l); [|eauto].
  rewrite (gateway_call_rejected _ _ _ (rejected _)). eauto.
Qed.

Lemma generateWritingPrompts_rejected options :
  generateWritingPrompts provider options st
  = (Err (gatewayError error),
     {| provider_calls := S (provider_calls st) |}).
Proof.
  unfold generateWritingPrompts, bind.
  now rewrite (gateway_call_rejected _ _ _ (rejected _)).
Qed.

Lemma generateAffirmation_rejected options :
  generateAffirmation provider options st
  = (Err (gatewayError error),
     {| provider_calls := S (provider_calls st) |}).
Proof.
  unfold generateAffirmation, bind.
  now rewrite (gateway_call_rejected _ _ _ (rejected _)).
Qed.

(** No controller action answers with an envelope. *)
Lemma controllers_rejected :
  (forall body, exists e st', generate provider body st = (Err e, st'))
  /\ (forall user letterId, exists e st',
        getReflectionPrompt provider getLetterById user letterId st
        = (Err e, st'))
  /\ (forall mood theme count, exists e st',
        getWritingPrompts provider mood theme count st = (Err e, st'))
  /\ (forall user tod, exists e st',
        getAffirmation provider user tod st = (Err e, st')).
Proof.
  split; [|split; [|split]].
  - intros body. unfold generate, bind.
    edestruct generateContent_rejected as (e & st' & ->). eauto.
  - intros user letterId. unfold getReflectionPrompt, bind, lift, throw.
    destruct (negb (truthy letterId)); [eauto|].
    destruct (getLetterById (user_id user) letterId) as [letter|e];
      [|eauto].
    destruct (negb (isDelivered letter)); [eauto|].
    edestruct generateReflectionPrompt_rejected as (e & st' & ->). eauto.
  - intros mood theme count. unfold getWritingPrompts, bind.
    rewrite generateWritingPrompts_rejected. eauto.
  - intros user tod. unfold getAffirmation, bind.
    rewrite generateAffirmation_rejected. eauto.
Qed.
End Rejected.

End Entry.

(** C3.  A failing provider call is classified by the status the provider
    reported, and by nothing else: 429 gives ProviderRateLimited, 400 gives
    ProviderBadRequest with the provider's message appended to the
    service's, 401 and 403 give ProviderAuthFailed, anything else gives
    ProviderUnavailable; and the gateway then raises that error, it does
    not return a value. *)
Theorem gateway_classifies_by_status (error : ProviderError) :
  (exists msg cause, gatewayError error = AIServiceError msg cause)
  /\ kind (gatewayError error) = Some (kindOfStatus (status error))
  /\ (status error = Some 429%Z ->
      kind (gatewayError error) = Some ProviderRateLimited)
  /\ (status error = Some 400%Z ->
      kind (gatewayError error) = Some ProviderBadRequest
      /\ exists cause,
          gatewayError error
          = AIServiceError (MSG_BAD_REQUEST ++ to_string (message error)) cause)
  /\ (status error = Some 401%Z \/ status error = Some 403%Z ->
      kind (gatewayError error) = Some ProviderAuthFailed)
  /\ (status error <> Some 429%Z -> status error <> Some 400%Z ->
      status error <> Some 401%Z -> status error <> Some 403%Z ->
      kind (gatewayError error) = Some ProviderUnavailable)
  /\ (forall provider st request,
        provider (provider_calls st) request = Rejected error ->
        callGeminiAPI (models_generateContent provider request) st
        = (Err (gatewayError error),
           {| provider_calls := S (provider_calls st) |}))
  /\ (forall provider getLetterById st,
        (forall request,
            provider (provider_calls st) request = Rejected error) ->
        (forall body, exists e st', generate provider body st = (Err e, st'))
        /\ (forall user letterId, exists e st',
              getReflectionPrompt provider getLetterById user letterId st
              = (Err e, st'))
        /\ (forall mood theme count, exists e st',
              getWritingPrompts provider mood theme count st = (Err e, st'))
        /\ (forall user tod, exists e st',
              getAffirmation provider user tod st = (Err e, st'))).
Proof.
  pose proof (gatewayError_kind error) as K.
  split; [apply gatewayError_class|].
  split; [exact K|].
  split; [intros E; rewrite K, E; reflexivity|].
  split.
  { intros E. split; [rewrite K, E; reflexivity|].
    exists None. unfold gatewayError, status_is. now rewrite E. }
  split; [intros [E|E]; rewrite K, E; reflexivity|].
  split.
  { intros E1 E2 E3 E4. rewrite K. unfold kindOfStatus.
    destruct (status error) as [s|]; [|reflexivity].
    destruct (Z.eqb_spec s 429); [congruence|].
    destruct (Z.eqb_spec s 400); [congruence|].
    destruct (Z.eqb_spec s 401); [congruence|].
    destruct (Z.eqb_spec s 403); [congruence|reflexivity]. }
  split; [intros provider st request H; now apply gateway_call_rejected|].
  intros provider getLetterById st H.
  exact (@controllers_rejected provider getLetterById st error H).
Qed.

Lemma gateway_classifies_by_status_witness :
  let error := {| status := Some 400%Z; message := Some (str "quota") |} in
  kind (gatewayError error) = Some ProviderBadRequest
  /\ exists cause,
      gatewayError error
      = AIServiceError (str "Invalid request to AI servicequota") cause.
Proof.
  intros error.
  exact (proj1 (proj2 (proj2 (proj2 (gateway_classifies_by_status error))))
           eq_refl).
Defined.

Lemma validation_before_provider_witness :
  isDelivered Samples.pendingLetter = false
  /\ exists msg detail,
      getReflectionPrompt Samples.failingProvider Samples.store
        Samples.writer (VStr (str "x")) Samples.initial
      = (Err (ValidationError msg [(str "letterId", detail)]),
         Samples.initial).
Proof.
  split; [reflexivity|].
  exact (proj1 (proj2 (validation_before_provider
                         Samples.failingProvider Samples.store
                         Samples.initial))
           Samples.writer (VStr (str "x")) Samples.pendingLetter
           eq_refl eq_refl).
Defined.

End EntryProps.

(* ================================================================== *)
(** * Properties of the response interpreter *)
(* ================================================================== *)

Module InterpreterProps.
Import JS Effects Effects.Notations Service Controller GatewayProps.

(** [JSON.parse(undefined)] throws: the text [undefined] is not JSON. *)
Lemma decode_absent key fr um sr :
  decode key {| text := None; finishReason := fr;
                usageMetadata := um; safetyRatings := sr |} = None.
Proof. now vm_compute. Qed.

Section Interpreter.
Variable provider : nat -> Request -> ProviderOutcome.
Variable st : State.
Variable response : Response.
Hypothesis resolved :
  forall request, provider (provider_calls st) request = Resolved response.

Let st1 : State := {| provider_calls := S (provider_calls st) |}.

(** The reflection intent falls back on any text, absent text too. *)
Lemma generateReflectionPrompt_fallback letter :
  has_content letter = true ->
  decode (str "question") response = None ->
  generateReflectionPrompt provider (Some letter) st
  = (Ok {| prompt := VStr (extractQuestionFromText (text response));
           refl_metadata := fallbackMetadata |}, st1).
Proof.
  intros C D. unfold generateReflectionPrompt, bind. rewrite C.
  rewrite (gateway_call_resolved _ _ _ (resolved _)). now rewrite D.
Qed.

(** A text that decodes is not a fallback: the result is not degraded. *)
Lemma generateReflectionPrompt_parsed letter question :
  has_content letter = true ->
  decode (str "question") response = Some question ->
  generateReflectionPrompt provider (Some letter) st
  = (Ok {| prompt := question;
           refl_metadata := parsedMetadata response |}, st1)
  /\ degraded (parsedMetadata response) = false.
Proof.
  intros C D. split; [|reflexivity].
  unfold generateReflectionPrompt, bind. rewrite C.
  rewrite (gateway_call_resolved _ _ _ (resolved _)). now rewrite D.
Qed.

(** The other two intents fall back when there is a text. *)
Lemma generateWritingPrompts_fallback options t :
  decode (str "prompts") response = None ->
  text response = Some t ->
  generateWritingPrompts provider options st
  = (Ok {| prompts :=
             VArr (map VStr
                     (fallbackPrompts t
                        (match w_count options with
                         | Some n => n
                         | None => 3%Z
                         end)));
           prompts_metadata := fallbackMetadata |}, st1).
Proof.
  intros D T. unfold generateWritingPrompts, bind.
  rewrite (gateway_call_resolved _ _ _ (resolved _)). now rewrite D, T.
Qed.

Lemma generateAffirmation_fallback options t :
  decode (str "affirmation") response = None ->
  text response = Some t ->
  generateAffirmation provider options st
  = (Ok {| affirmation := VStr (trim t);
           aff_metadata := fallbackMetadata |}, st1).
Proof.
  intros D T. unfold generateAffirmation, bind.
  rewrite (gateway_call_resolved _ _ _ (resolved _)). now rewrite D, T.
Qed.

(** ... and raise the runtime's TypeError when there is none. *)
Lemma generateWritingPrompts_no_text options :
  text response = None ->
  generateWritingPrompts provider options st = (Err TypeError, st1).
Proof.
  intros T. unfold generateWritingPrompts, bind.
  rewrite (gateway_call_resolved _ _ _ (resolved _)).
  destruct response as [tx fr um sr]. simpl in T. subst tx.
  now rewrite decode_absent.
Qed.

Lemma generateAffirmation_no_text options :
  text response = None ->
  generateAffirmation provider options st = (Err TypeError, st1).
Proof.
  intros T. unfold generateAffirmation, bind.
  rewrite (gateway_call_resolved _ _ _ (resolved _)).
  destruct response as [tx fr um sr]. simpl in T. subst tx.
  now rewrite decode_absent.
Qed.

End Interpreter.

Lemma fallbackMetadata_degraded : degraded fallbackMetadata = true.
Proof. reflexivity. Qed.

(** Decoding checks the syntax only, not the schema: an object without
    the expected field decodes, to [undefined]. *)
Lemma decode_empty_object fr um sr :
  decode (str "question")
    {| text := Some (str "{}"); finishReason := fr;
       usageMetadata := um; safetyRatings := sr |}
  = Some VUndefined.
Proof. now vm_compute. Qed.

(** C1.  When the provider's reply has no text, decoding fails for every
    intent, and only the reflection intent then returns a degraded result
    (the default question); the writing-prompts and the affirmation intents
    raise a TypeError from their fallback instead of returning one. *)
Theorem fallback_raises_without_text
        (options : WritingOptions) (aoptions : AffirmationOptions)
        (st : State) :
  let st1 := {| provider_calls := S (provider_calls st) |} in
  generateWritingPrompts Samples.silentProvider options st
  = (Err TypeError, st1)
  /\ generateAffirmation Samples.silentProvider aoptions st
     = (Err TypeError, st1)
  /\ generateReflectionPrompt Samples.silentProvider
       (Some Samples.deliveredLetter) st
     = (Ok {| prompt := VStr DEFAULT_QUESTION;
              refl_metadata := fallbackMetadata |}, st1).
Proof.
  intros st1. split; [|split].
  - now apply generateWritingPrompts_no_text with (response := Samples.silentResponse).
  - now apply generateAffirmation_no_text with (response := Samples.silentResponse).
  - now apply generateReflectionPrompt_fallback
      with (response := Samples.silentResponse).
Qed.

End InterpreterProps.

(* ================================================================== *)
(** * Properties of the sanitizer and of the fallback extractors *)
(* ================================================================== *)

Module TextProps.
Import JS Effects Service Controller Readings StringProps.
#[local] Arguments cu_eqb : simpl never.

Lemma filter_fixed A (f : A -> bool) (l : list A) :
  (forall x, In x l -> f x = true) -> filter f l = l.
Proof.
  induction l as [|x l IH]; simpl; [reflexivity|]. intros H.
  rewrite (H x) by now left. f_equal. apply IH. intros y Hy. apply H. now right.
Qed.

Lemma map_fixed A (f : A -> A) (l : list A) :
  (forall x, In x l -> f x = x) -> map f l = l.
Proof.
  induction l as [|x l IH]; simpl; [reflexivity|]. intros H.
  rewrite (H x) by now left. f_equal. apply IH. intros y Hy. apply H. now right.
Qed.

Lemma sanitizeForPrompt_pipeline c r maxLength :
  sanitizeForPrompt (Some (c :: r)) maxLength
  = pipeline (limit maxLength) (c :: r).
Proof.
  unfold sanitizeForPrompt, pipeline, collapse, limit.
  now rewrite replace_class_subst, replace_class_delete.
Qed.

Lemma pipeline_no_quote n s : ~ In DQUOTE (pipeline n s).
Proof.
  unfold pipeline. intros H.
  apply trim_in, collapse_in, filter_In in H. destruct H as [H _].
  apply in_map_iff in H. destruct H as (c & E & _).
  destruct (cu_eqb DQUOTE c) eqn:Q; [discriminate|].
  subst c. now rewrite cu_eqb_refl in Q.
Qed.

Lemma pipeline_no_backslash n s : ~ In BACKSLASH (pipeline n s).
Proof.
  unfold pipeline. intros H.
  apply trim_in, collapse_in, filter_In in H. destruct H as [_ H].
  now rewrite cu_eqb_refl in H.
Qed.

Lemma pipeline_length n s : (length (pipeline n s) <= Z.to_nat n)%nat.
Proof.
  unfold pipeline, substring0.
  eapply Nat.le_trans; [apply trim_length|].
  eapply Nat.le_trans; [apply collapse_length|].
  eapply Nat.le_trans; [apply filter_length_le|].
  rewrite length_map, length_firstn. lia.
Qed.

Lemma pipeline_idempotent n s : pipeline n (pipeline n s) = pipeline n s.
Proof.
  unfold pipeline at 1. unfold substring0.
  rewrite firstn_all2 by apply pipeline_length.
  rewrite map_fixed.
  2:{ intros x Hx. destruct (cu_eqb DQUOTE x) eqn:Q; [|reflexivity].
      apply cu_eqb_eq in Q. subst x. now apply pipeline_no_quote in Hx. }
  rewrite filter_fixed.
  2:{ intros x Hx. destruct (cu_eqb BACKSLASH x) eqn:Q; [|reflexivity].
      apply cu_eqb_eq in Q. subst x. now apply pipeline_no_backslash in Hx. }
  rewrite collapse_fixed.
  2:{ unfold pipeline. apply trim_no_newlines3, collapse_no_newlines3. }
  unfold pipeline. apply trim_idempotent.
Qed.

(** C8.  The output of the sanitizer has no double quote and no
    backslash, whatever the text and the length limit; an absent or empty
    text gives the empty string; and sanitizing an output again, with the
    same limit, returns it unchanged.  The function is total: it has a
    result on every input. *)
Theorem sanitizeForPrompt_clean (t : option jsstring) (maxLength : option Z) :
  ~ In DQUOTE (sanitizeForPrompt t maxLength)
  /\ ~ In BACKSLASH (sanitizeForPrompt t maxLength)
  /\ sanitizeForPrompt None maxLength = []
  /\ sanitizeForPrompt (Some []) maxLength = []
  /\ sanitizeForPrompt (Some (sanitizeForPrompt t maxLength)) maxLength
     = sanitizeForPrompt t maxLength.
Proof.
  destruct t as [[|c r]|]; try (now repeat split; auto).
  rewrite sanitizeForPrompt_pipeline.
  split; [apply pipeline_no_quote|].
  split; [apply pipeline_no_backslash|].
  split; [reflexivity|]. split; [reflexivity|].
  destruct (pipeline (limit maxLength) (c :: r)) as [|x l] eqn:E;
    [reflexivity|].
  rewrite sanitizeForPrompt_pipeline, <- E. apply pipeline_idempotent.
Qed.

Lemma split_nonempty sep s : split sep s <> [].
Proof.
  destruct s as [|c r]; simpl; [discriminate|].
  destruct (cu_eqb c sep); [discriminate|].
  destruct (split sep r); discriminate.
Qed.

Lemma split_join sep s : join sep (split sep s) = s.
Proof.
  induction s as [|c r IH]; [reflexivity|]. simpl.
  pose proof (@split_nonempty sep r) as NE.
  destruct (cu_eqb c sep) eqn:E.
  - apply cu_eqb_eq in E. subst c.
    destruct (split sep r) as [|p ps]; [congruence|].
    change (join sep ([] :: p :: ps)) with (sep :: join sep (p :: ps)).
    now rewrite IH.
  - destruct (split sep r) as [|p ps]; [congruence|].
    rewrite <- IH. destruct ps; reflexivity.
Qed.

Lemma split_no_sep sep s line : In line (split sep s) -> ~ In sep line.
Proof.
  revert line. induction s as [|c r IH]; simpl.
  - intros line [<-|[]]. auto.
  - intros line. destruct (cu_eqb c sep) eqn:E.
    + intros [<-|H]; [auto|now apply IH].
    + destruct (split sep r) as [|p ps]; simpl.
      * intros [<-|[]] [->|[]]. now rewrite cu_eqb_refl in E.
      * intros [<-|H].
        -- intros [->|H']; [now rewrite cu_eqb_refl in E|].
           revert H'. apply IH. now left.
        -- apply IH. now right.
Qed.

Lemma firstn_in A (n : nat) (l : list A) x : In x (firstn n l) -> In x l.
Proof.
  intros H. rewrite <- (firstn_skipn n l). apply in_or_app. now left.
Qed.

Lemma slice0_nonneg A (n : Z) (l : list A) :
  (0 <= n)%Z -> slice0 n l = firstn (Z.to_nat n) l.
Proof. intros H. unfold slice0. destruct (Z.ltb_spec n 0); [lia|reflexivity]. Qed.

(** With a negative count [slice] counts from the end instead: the
    last lines are dropped.  The controller never passes one. *)
Lemma fallbackPrompts_negative_count (t : jsstring) (n : Z) :
  (n < 0)%Z ->
  let kept := filter (fun p => (5 <? length p)%nat) (map trim (split LF t)) in
  fallbackPrompts t n = firstn (length kept - Z.to_nat (- n)) kept.
Proof.
  intros H kept. unfold fallbackPrompts, slice0. fold kept.
  destruct (Z.ltb_spec n 0); [|lia]. f_equal. lia.
Qed.

(** C7.  For a requested count [n] (a count: not negative) the
    writing-prompts fallback is the first [n] of the lines of the text,
    each trimmed, that have at least 6 units after trimming.  The lines
    are the pieces between line feeds: joined by line feeds they give the
    text back and none contains a line feed.  So the result has at most
    [n] lines, each the trimming of a line and at least 6 units long; on
    the three lines of the spec's example and the count 3 it is the single
    line [This is a valid prompt line]. *)
Theorem fallbackPrompts_spec (t : jsstring) (n : Z) :
  (0 <= n)%Z ->
  fallbackPrompts t n
  = firstn (Z.to_nat n)
      (filter (fun p => (6 <=? length p)%nat) (map trim (split LF t)))
  /\ join LF (split LF t) = t
  /\ (forall line, In line (split LF t) -> ~ In LF line)
  /\ (length (fallbackPrompts t n) <= Z.to_nat n)%nat
  /\ (forall p, In p (fallbackPrompts t n) ->
        (6 <= length p)%nat
        /\ exists line, In line (split LF t) /\ p = trim line)
  /\ fallbackPrompts Samples.threeLines 3
     = [str "This is a valid prompt line"].
Proof.
  intros Hn. unfold fallbackPrompts. rewrite slice0_nonneg by exact Hn.
  split; [reflexivity|].
  split; [apply split_join|].
  split; [intros line; apply split_no_sep|].
  split; [rewrite length_firstn; lia|].
  split; [|now vm_compute].
  intros p H. apply firstn_in, filter_In in H. destruct H as [H L].
  apply Nat.ltb_lt in L. split; [lia|].
  apply in_map_iff in H. destruct H as (line & <- & H). eauto.
Qed.

Lemma plain_cons c body :
  cu_eqb c QMARK = false -> cu_eqb c DOT || cu_eqb c BANG = false ->
  plain body -> plain (c :: body).
Proof.
  intros Q D (P1 & P2 & P3). apply orb_false_elim in D. destruct D as [D B].
  repeat split; intros [->|H]; auto; now rewrite cu_eqb_refl in *.
Qed.

Lemma match_question_at_some s m :
  match_question_at s = Some m ->
  exists body post, m = body ++ [QMARK] /\ s = body ++ QMARK :: post
                    /\ plain body.
Proof.
  revert m. induction s as [|c r IH]; simpl; [discriminate|]. intros m.
  destruct (cu_eqb c QMARK) eqn:Q.
  - intros [= <-]. apply cu_eqb_eq in Q. subst c.
    exists [], r. repeat split; auto.
  - destruct (cu_eqb c DOT || cu_eqb c BANG) eqn:D; [discriminate|].
    destruct (match_question_at r) as [m'|]; [|discriminate].
    intros [= <-]. destruct (IH m' eq_refl) as (body & post & -> & -> & P).
    exists (c :: body), post.
    split; [reflexivity|]. split; [reflexivity|]. now apply plain_cons.
Qed.

Lemma match_question_at_plain body post :
  plain body ->
  match_question_at (body ++ QMARK :: post) = Some (body ++ [QMARK]).
Proof.
  induction body as [|c body IH]; intros (P1 & P2 & P3); simpl.
  - rewrite ?cu_eqb_refl. reflexivity.
  - destruct (cu_eqb c QMARK) eqn:Q.
    { apply cu_eqb_eq in Q. subst c. exfalso. apply P1. now left. }
    destruct (cu_eqb c DOT) eqn:D.
    { apply cu_eqb_eq in D. subst c. exfalso. apply P2. now left. }
    destruct (cu_eqb c BANG) eqn:B.
    { apply cu_eqb_eq in B. subst c. exfalso. apply P3. now left. }
    simpl. rewrite IH; [reflexivity|].
    repeat split; intros H; [apply P1|apply P2|apply P3]; now right.
Qed.

Lemma match_question_at_none_head c r :
  match_question_at (c :: r) = None -> c <> QMARK.
Proof. simpl. intros H ->. now rewrite cu_eqb_refl in H. Qed.

Lemma match_question_some s m :
  match_question s = Some m ->
  exists pre body post,
    s = pre ++ body ++ QMARK :: post
    /\ m = body ++ [QMARK]
    /\ ~ In QMARK pre /\ plain body /\ sentence_end pre.
Proof.
  revert m. induction s as [|c r IH]; intros m; [discriminate|].
  cbn [match_question].
  destruct (match_question_at (c :: r)) as [m'|] eqn:A.
  - intros [= <-].
    destruct (match_question_at_some _ A) as (body & post & -> & E & P).
    exists [], body, post. repeat split; auto; try apply P. now left.
  - intros H. destruct (IH m H) as (pre & body & post & -> & -> & NQ & P & SE).
    exists (c :: pre), body, post.
    split; [reflexivity|]. split; [reflexivity|].
    split.
    { intros [E|I]; [|auto]. now apply match_question_at_none_head in A. }
    split; [exact P|].
    right. destruct SE as [->|(pre' & d & -> & Hd)].
    + exists [], c. split; [reflexivity|].
      simpl in A. rewrite (match_question_at_plain post P) in A.
      destruct (cu_eqb c QMARK); [discriminate|].
      destruct (cu_eqb c DOT) eqn:D; [left; now apply cu_eqb_eq|].
      destruct (cu_eqb c BANG) eqn:B; [right; now apply cu_eqb_eq|].
      discriminate.
    + exists (c :: pre'), d. split; [reflexivity|exact Hd].
Qed.

Lemma match_question_none s : match_question s = None <-> ~ In QMARK s.
Proof.
  induction s as [|c r IH]; [simpl; tauto|]. cbn [match_question].
  destruct (match_question_at (c :: r)) as [m|] eqn:A.
  - split; [discriminate|]. intros H. exfalso. apply H.
    destruct (match_question_at_some _ A) as (body & post & _ & -> & _).
    apply in_or_app. right. now left.
  - rewrite IH. apply match_question_at_none_head in A. simpl.
    split; [intros H [E|I]; auto|intros H I; apply H; now right].
Qed.

(** C6.  The fallback extractor gives the default question for an absent
    text and for a text without a question mark.  For a text with one it
    takes the piece that ends at the first question mark and starts after
    the last full stop or exclamation mark before it (or at the start of
    the text), drops the leading units that are not letters, deletes the
    quote characters and trims.  On the spec's example the result is
    [How are you feeling now?]. *)
Theorem extractQuestionFromText_spec :
  extractQuestionFromText None = DEFAULT_QUESTION
  /\ (forall s, ~ In QMARK s ->
        extractQuestionFromText (Some s) = DEFAULT_QUESTION)
  /\ (forall s, In QMARK s ->
        exists pre body post,
          s = pre ++ body ++ QMARK :: post
          /\ ~ In QMARK pre /\ plain body /\ sentence_end pre
          /\ extractQuestionFromText (Some s) = cleanQuestion (body ++ [QMARK]))
  /\ extractQuestionFromText (Some (str "...great! How are you feeling now?"))
     = str "How are you feeling now?".
Proof.
  split; [reflexivity|]. split; [|split; [|now vm_compute]].
  - intros s H. unfold extractQuestionFromText.
    destruct s as [|c r]; [reflexivity|].
    apply match_question_none in H. now rewrite H.
  - intros s H. unfold extractQuestionFromText.
    destruct s as [|c r]; [destruct H|].
    destruct (match_question (c :: r)) as [m|] eqn:M.
    + destruct (match_question_some _ M)
        as (pre & body & post & E & -> & NQ & P & SE).
      exists pre, body, post. repeat split; auto; try apply P.
      unfold cleanQuestion, is_quote. now rewrite replace_class_delete.
    + apply match_question_none in M. contradiction.
Qed.

Lemma fallbackPrompts_spec_witness :
  (0 <= 3)%Z /\ (length (fallbackPrompts Samples.threeLines 3) <= 3)%nat.
Proof.
  assert (H : (0 <= 3)%Z) by (vm_compute; discriminate).
  split; [exact H|].
  exact (proj1 (proj2 (proj2 (proj2
           (fallbackPrompts_spec Samples.threeLines H))))).
Defined.

Lemma extractQuestionFromText_spec_witness :
  ~ In QMARK (str "No question here.")
  /\ extractQuestionFromText (Some (str "No question here."))
     = DEFAULT_QUESTION.
Proof.
  assert (H : ~ In QMARK (str "No question here."))
    by (vm_compute; intuition discriminate).
  split; [exact H|].
  exact (proj1 (proj2 extractQuestionFromText_spec) _ H).
Defined.

End TextProps.

(* ================================================================== *)
(** * Further properties: the shape of the cleaned texts *)
(* ================================================================== *)

Module ShapeProps.
Import JS Effects Service Controller Helpers Readings Observations.
Import StringProps TextProps.
#[local] Arguments cu_eqb : simpl never.

Section Ends.
Variable A : Type.
Variable p : A -> bool.

Lemma dropWhileEnd_last (l r : list A) c :
  dropWhileEnd p l = r ++ [c] -> p c = false.
Proof.
  revert r. induction l as [|x l IH]; intros r; simpl.
  - destruct r; discriminate.
  - destruct (dropWhileEnd p l) as [|y r'] eqn:E.
    + destruct (p x) eqn:Px; [destruct r; discriminate|].
      destruct r as [|z r]; [now intros [= <-]|].
      intros [= _ H]. destruct r; discriminate.
    + destruct r as [|z r]; [discriminate|].
      intros [= _ H]. now apply (IH r).
Qed.

Lemma dropWhileEnd_fixed (r : list A) c :
  p c = false -> dropWhileEnd p (r ++ [c]) = r ++ [c].
Proof.
  intros H. induction r as [|x r IH]; simpl; [now rewrite H|].
  rewrite IH. destruct (r ++ [c]) eqn:E; [destruct r; discriminate|reflexivity].
Qed.

Lemma dropWhile_incl (l : list A) x : In x (dropWhile p l) -> In x l.
Proof.
  destruct (dropWhile_suffix p l) as [a E]. intros H. rewrite E.
  apply in_or_app. now right.
Qed.
End Ends.

Lemma trim_trimmed (s : jsstring) : trimmed (trim s).
Proof.
  unfold trimmed, trim, trimStart, trimEnd. split.
  - intros c r E.
    pose proof (dropWhile_head is_whitespace s) as H.
    destruct (dropWhile is_whitespace s) as [|x l]; [discriminate|].
    destruct (dropWhileEnd_keeps_head is_whitespace x l H) as [r' Hr].
    rewrite Hr in E. now injection E as <- _.
  - intros r c E. now apply dropWhileEnd_last in E.
Qed.

Lemma trim_fixed (s : jsstring) : trimmed s -> trim s = s.
Proof.
  intros [H1 H2]. unfold trim, trimStart, trimEnd.
  destruct s as [|c r]; [reflexivity|].
  rewrite dropWhile_fixed by (apply (H1 c r eq_refl)).
  destruct (exists_last (l := c :: r)) as (r' & z & E); [discriminate|].
  rewrite E. apply dropWhileEnd_fixed. now apply (H2 r').
Qed.

Lemma sanitizeForPrompt_length (t : option jsstring) (maxLength : option Z) :
  (length (sanitizeForPrompt t maxLength) <= Z.to_nat (limit maxLength))%nat
  /\ (length (sanitizeForPrompt t maxLength) <= length (to_string t))%nat.
Proof.
  destruct t as [[|c r]|]; try (simpl; lia).
  pose proof (sanitizeForPrompt_pipeline c r maxLength) as P.
  change (list code_unit) with jsstring in P. rewrite P. clear P.
  split; [apply pipeline_length|].
  unfold pipeline, substring0.
  eapply Nat.le_trans; [apply trim_length|].
  eapply Nat.le_trans; [apply collapse_length|].
  eapply Nat.le_trans; [apply filter_length_le|].
  rewrite length_map, length_firstn. simpl. lia.
Qed.

(** X1.  The output of the sanitizer is never longer than the length limit nor
    than the text, has no three line feeds in a row, and has no white
    space at either end. *)
Theorem sanitizeForPrompt_shape (t : option jsstring) (maxLength : option Z) :
  let out := sanitizeForPrompt t maxLength in
  (length out <= Z.to_nat (limit maxLength))%nat
  /\ (length out <= length (to_string t))%nat
  /\ has_newlines3 out = false
  /\ trimmed out.
Proof.
  cbv zeta.
  split; [apply sanitizeForPrompt_length|].
  split; [apply sanitizeForPrompt_length|].
  assert (E : trimmed []).
  { split; intros; [discriminate|]. destruct r; discriminate. }
  destruct t as [[|c r]|]; try (simpl; split; [reflexivity|exact E]).
  pose proof (sanitizeForPrompt_pipeline c r maxLength) as P.
  change (list code_unit) with jsstring in P. rewrite P. clear P.
  split; [|apply trim_trimmed].
  apply trim_no_newlines3, collapse_no_newlines3.
Qed.

Lemma validatePrompt_ok_string (p : jsval) :
  validatePrompt p = Ok tt -> exists s, p = VStr s /\ blank s = false.
Proof.
  destruct p; simpl; try discriminate.
  destruct (trim s) eqn:E; simpl; [discriminate|]. intros _.
  exists s. split; [reflexivity|].
  destruct (blank s) eqn:B; [|reflexivity].
  apply trim_blank in B. congruence.
Qed.

(** X2.  [validatePrompt] accepts a prompt exactly when it is a string with at
    least one unit that is not white space. *)
Theorem validatePrompt_accepts_iff (p : jsval) :
  validatePrompt p = Ok tt <-> exists s, p = VStr s /\ blank s = false.
Proof.
  split; [apply validatePrompt_ok_string|].
  intros (s & -> & B). simpl. destruct (trim s) eqn:E; [|reflexivity].
  apply trim_blank in E. congruence.
Qed.

Lemma dropWhile_nonempty_last A (p : A -> bool) (l : list A) z x r :
  dropWhile p (l ++ [z]) = x :: r -> exists r', x :: r = r' ++ [z].
Proof.
  induction l as [|y l IH]; simpl.
  - destruct (p z); [discriminate|]. intros [= <- <-]. now exists [].
  - destruct (p y); [exact IH|]. intros [= <- <-].
    exists (y :: l). reflexivity.
Qed.

Lemma letter_not_quote c : is_letter c = true -> is_quote c = false.
Proof.
  unfold is_letter, is_quote, cu_eqb, DQUOTE, SQUOTE. intros H.
  destruct (N.eqb_spec c 34) as [->|]; [discriminate|].
  destruct (N.eqb_spec c 39) as [->|]; [discriminate|reflexivity].
Qed.

Lemma letter_not_whitespace c : is_letter c = true -> is_whitespace c = false.
Proof.
  unfold is_letter, is_whitespace. intros H.
  apply orb_true_iff in H.
  repeat rewrite ?andb_true_iff, ?N.leb_le in H.
  repeat match goal with
         | |- context [N.eqb c ?k] => destruct (N.eqb_spec c k); [lia|]
         | |- context [N.leb ?a ?b] => destruct (N.leb_spec a b); try lia
         end; reflexivity.
Qed.

(** The cleaned match: empty when the piece has no letter, and otherwise
    the piece from its first letter on, without its quotes. *)
Lemma cleanQuestion_shape (body : jsstring) :
  let q := cleanQuestion (body ++ [QMARK]) in
  (existsb is_letter body = false -> q = [])
  /\ (existsb is_letter body = true ->
      exists c r, q = (c :: r) ++ [QMARK] /\ is_letter c = true
                  /\ incl (c :: r) body).
Proof.
  unfold cleanQuestion.
  induction body as [|x body [IH1 IH2]]; cbn [existsb app dropWhile].
  - split; [reflexivity|discriminate].
  - destruct (is_letter x) eqn:L; cbn [negb orb].
    + split; [discriminate|]. intros _.
      cbn [filter]. rewrite (letter_not_quote _ L). cbn [negb].
      rewrite filter_app. cbn [filter].
      change (negb (is_quote QMARK)) with true. cbv iota.
      assert (T : trimmed (x :: filter (fun c => negb (is_quote c)) body
                             ++ [QMARK])).
      { split.
        - intros c r [= <- _]. now apply letter_not_whitespace.
        - intros r c E. rewrite app_comm_cons in E. apply app_inj_tail in E.
          destruct E as [_ <-]. reflexivity. }
      rewrite (trim_fixed T).
      exists x, (filter (fun c => negb (is_quote c)) body).
      split; [reflexivity|]. split; [exact L|].
      intros y [<-|H]; [now left|]. right. now apply filter_In in H.
    + split; [exact IH1|]. intros H.
      destruct (IH2 H) as (c & r & E & Lc & I).
      exists c, r. split; [exact E|]. split; [exact Lc|].
      intros y Hy. right. now apply I.
Qed.

Lemma cleanQuestion_members (m : jsstring) x :
  In x (cleanQuestion m) -> In x m /\ is_quote x = false.
Proof.
  unfold cleanQuestion. intros H. apply trim_in, filter_In in H.
  destruct H as [H Q]. split; [now apply dropWhile_incl in H|].
  now destruct (is_quote x).
Qed.

Lemma extractQuestionFromText_cases (t : option jsstring) :
  extractQuestionFromText t = DEFAULT_QUESTION
  \/ exists body, plain body
                  /\ extractQuestionFromText t = cleanQuestion (body ++ [QMARK]).
Proof.
  unfold extractQuestionFromText.
  destruct t as [[|c r]|]; auto.
  destruct (match_question (c :: r)) as [m|] eqn:M; auto.
  destruct (match_question_some _ M)
    as (pre & body & post & E & -> & NQ & P & SE).
  right. exists body. split; [exact P|].
  unfold cleanQuestion, is_quote. now rewrite replace_class_delete.
Qed.

(** X3.  Whatever the text, the fallback question has no quote character, no
    full stop and no exclamation mark, and it is either empty or starts
    with a letter and ends with its only question mark. *)
Theorem extractQuestionFromText_shape (t : option jsstring) :
  let q := extractQuestionFromText t in
  ~ In DQUOTE q /\ ~ In SQUOTE q /\ ~ In DOT q /\ ~ In BANG q
  /\ (q = []
      \/ (exists c r, q = c :: r /\ is_letter c = true)
         /\ (exists r, q = r ++ [QMARK] /\ ~ In QMARK r)).
Proof.
  cbv zeta. destruct (extractQuestionFromText_cases t) as [->|(body & P & ->)].
  - repeat split; try (vm_compute; intuition discriminate).
    right. split; [vm_compute; eauto|].
    exists (removelast DEFAULT_QUESTION).
    vm_compute. split; [reflexivity|intuition discriminate].
  - destruct P as (P1 & P2 & P3).
    assert (M : forall x, In x (cleanQuestion (body ++ [QMARK])) ->
                          (In x body \/ x = QMARK) /\ is_quote x = false).
    { intros x H. apply cleanQuestion_members in H. destruct H as [H Q].
      split; [|exact Q]. apply in_app_or in H.
      destruct H as [H|[H|[]]]; auto. }
    split; [intros H; apply M in H; now destruct H as [_ H]|].
    split; [intros H; apply M in H; now destruct H as [_ H]|].
    split; [intros H; apply M in H; destruct H as [[H|H] _];
            [auto|discriminate]|].
    split; [intros H; apply M in H; destruct H as [[H|H] _];
            [auto|discriminate]|].
    destruct (cleanQuestion_shape body) as [S1 S2].
    destruct (existsb is_letter body) eqn:L; [right|left; now apply S1].
    destruct (S2 eq_refl) as (c & r & E & Lc & I). rewrite E.
    split; [exists c, (r ++ [QMARK]); now split|].
    exists (c :: r). split; [reflexivity|].
    intros H. apply P1. now apply I.
Qed.

(** X4.  On a text with a question mark the fallback question is empty exactly
    when the piece before the first question mark, back to the last
    sentence end, has no letter. *)
Theorem extractQuestionFromText_empty (s : jsstring) :
  In QMARK s ->
  exists pre body post,
    s = pre ++ body ++ QMARK :: post
    /\ ~ In QMARK pre /\ plain body /\ sentence_end pre
    /\ (extractQuestionFromText (Some s) = []
        <-> existsb is_letter body = false).
Proof.
  intros H. unfold extractQuestionFromText.
  destruct s as [|c0 r0]; [destruct H|].
  destruct (match_question (c0 :: r0)) as [m|] eqn:M.
  2:{ apply match_question_none in M. contradiction. }
  destruct (match_question_some _ M)
    as (pre & body & post & E & -> & NQ & P & SE).
  exists pre, body, post. repeat split; auto; try apply P.
  - intros Q. rewrite replace_class_delete in Q.
    destruct (cleanQuestion_shape body) as [_ S2].
    destruct (existsb is_letter body); [|reflexivity].
    destruct (S2 eq_refl) as (c & r & Eq & _).
    unfold cleanQuestion, is_quote in Eq. rewrite Eq in Q. discriminate.
  - intros L. rewrite replace_class_delete.
    now apply (proj1 (cleanQuestion_shape body)).
Qed.

End ShapeProps.

(* ================================================================== *)
(** * Further properties: calls and requests *)
(* ================================================================== *)

Module CallProps.
Import JS Effects Effects.Notations Service Controller Helpers.
Import Readings Observations.
Import StringProps GatewayProps ConfigProps EntryProps InterpreterProps.
Import TextProps ShapeProps.
#[local] Arguments cu_eqb : simpl never.
#[local] Open Scope Q_scope.

Section Calls.
Variable provider : nat -> Request -> ProviderOutcome.
Variable getLetterById : jsval -> jsval -> result thrown Letter.

Lemma gateway_call request st :
  exists r,
    callGeminiAPI (models_generateContent provider request) st = (r, bump st)
    /\ (forall response, provider (provider_calls st) request = Resolved response
                         -> r = Ok response)
    /\ (forall error, provider (provider_calls st) request = Rejected error
                      -> r = Err (gatewayError error)).
Proof.
  destruct (provider (provider_calls st) request) as [response|error] eqn:E.
  - exists (Ok response). split; [now apply gateway_call_resolved|].
    split; congruence.
  - exists (Err (gatewayError error)).
    split; [now apply gateway_call_rejected|]. split; congruence.
Qed.

Lemma generateContent_calls p options st :
  at_most_one_call (generateContent provider p options st) st.
Proof.
  unfold at_most_one_call, generateContent, bind, lift, ret.
  destruct (validatePrompt p); [|now left].
  match goal with |- context [callGeminiAPI ?c st] =>
    destruct (@gateway_call
      (FreeformRequest (js_or (model options) (VStr DEFAULT_MODEL)) p
         (buildGenerationConfig options)) st) as (r & -> & _) end.
  right. now destruct r.
Qed.

Lemma generateReflectionPrompt_calls letter st :
  at_most_one_call (generateReflectionPrompt provider letter st) st.
Proof.
  unfold at_most_one_call, generateReflectionPrompt, bind, throw, ret.
  destruct letter as [l|]; [|now left].
  destruct (has_content l); [|now left].
  match goal with |- context [callGeminiAPI (models_generateContent _ ?q) st] =>
    destruct (@gateway_call q st) as (r & -> & _) end.
  right. destruct r as [response|]; [|reflexivity].
  now destruct (decode (str "question") response).
Qed.

Lemma generateWritingPrompts_calls options st :
  snd (generateWritingPrompts provider options st) = bump st.
Proof.
  unfold generateWritingPrompts, bind, throw, ret.
  match goal with |- context [callGeminiAPI (models_generateContent _ ?q) st] =>
    destruct (@gateway_call q st) as (r & -> & _) end.
  destruct r as [response|]; [|reflexivity].
  destruct (decode (str "prompts") response); [reflexivity|].
  now destruct (text response).
Qed.

Lemma generateAffirmation_calls options st :
  snd (generateAffirmation provider options st) = bump st.
Proof.
  unfold generateAffirmation, bind, throw, ret.
  match goal with |- context [callGeminiAPI (models_generateContent _ ?q) st] =>
    destruct (@gateway_call q st) as (r & -> & _) end.
  destruct r as [response|]; [|reflexivity].
  destruct (decode (str "affirmation") response); [reflexivity|].
  now destruct (text response).
Qed.

Lemma at_most_one_call_bind A B (c : M thrown A) (f : A -> B) st :
  at_most_one_call (c st) st ->
  at_most_one_call ((x <- c ;; ret (f x)) st) st.
Proof.
  unfold at_most_one_call, bind, ret.
  destruct (c st) as [[a|e] st']; simpl; auto.
Qed.

(** X5.  No controller action calls the provider twice: [generate] and
    [getReflectionPrompt] either fail without a call or make one call;
    [getWritingPrompts] and [getAffirmation] always make exactly one. *)
Theorem controllers_call_at_most_once (st : State) :
  (forall body, at_most_one_call (generate provider body st) st)
  /\ (forall user letterId,
         at_most_one_call
           (getReflectionPrompt provider getLetterById user letterId st) st)
  /\ (forall mood theme count,
         snd (getWritingPrompts provider mood theme count st) = bump st)
  /\ (forall user tod, snd (getAffirmation provider user tod st) = bump st).
Proof.
  split; [|split; [|split]].
  - intros body. unfold generate. apply at_most_one_call_bind.
    apply generateContent_calls.
  - intros user letterId. unfold getReflectionPrompt.
    destruct (negb (truthy letterId)); [now left|].
    unfold bind at 1, lift.
    destruct (getLetterById (user_id user) letterId) as [letter|e]; [|now left].
    destruct (negb (isDelivered letter)); [now left|].
    apply at_most_one_call_bind with
      (f := fun response =>
              {| success := true;
                 data := {| data_prompt := prompt response;
                            data_letterId := _id letter |} |}).
    apply generateReflectionPrompt_calls.
  - intros mood theme count. unfold getWritingPrompts, bind, ret.
    pose proof (generateWritingPrompts_calls
                  {| w_mood := mood; w_theme := theme;
                     w_count := Some (promptCount count) |} st) as H.
    destruct (generateWritingPrompts _ _ st) as [[a|e] st']; exact H.
  - intros user tod. unfold getAffirmation, bind, ret.
    pose proof (generateAffirmation_calls
                  {| username := js_or (user_name user) (user_username user);
                     timeOfDay := tod; stats := user_stats user |} st) as H.
    destruct (generateAffirmation _ _ st) as [[a|e] st']; exact H.
Qed.
End Calls.

Lemma models_generateContent_agree p1 p2 (P : Request -> Prop) request st :
  agree_on P p1 p2 -> P request ->
  models_generateContent p1 request st = models_generateContent p2 request st.
Proof.
  intros H HP. unfold models_generateContent. now rewrite (H _ _ HP).
Qed.

Lemma callGeminiAPI_agree p1 p2 (P : Request -> Prop) request st :
  agree_on P p1 p2 -> P request ->
  callGeminiAPI (models_generateContent p1 request) st
  = callGeminiAPI (models_generateContent p2 request) st.
Proof.
  intros H HP. unfold callGeminiAPI, try_catch.
  now rewrite models_generateContent_agree with (p2 := p2) (P := P).
Qed.

Lemma sanitizeForPrompt_members t maxLength :
  ~ In DQUOTE (sanitizeForPrompt t maxLength)
  /\ ~ In BACKSLASH (sanitizeForPrompt t maxLength).
Proof.
  destruct t as [[|c r]|]; try (split; intros []).
  pose proof (sanitizeForPrompt_pipeline c r maxLength) as P.
  change (list code_unit) with jsstring in P. rewrite P.
  split; [apply pipeline_no_quote|apply pipeline_no_backslash].
Qed.

Section Sent.
Variable getLetterById : jsval -> jsval -> result thrown Letter.
Variables p1 p2 : nat -> Request -> ProviderOutcome.

(** X6.  [generate] only ever sends the provider a request whose prompt is a
    string that is not blank and whose [topP] and [topK] are the
    defaults: its outcome is the same with any two providers that agree
    on such requests. *)
Theorem generate_sends (body : GenerateBody) (st : State) :
  agree_on freeformSent p1 p2 ->
  generate p1 body st = generate p2 body st.
Proof.
  intros H. unfold generate, generateContent, bind, lift.
  destruct (validatePrompt (body_prompt body)) as [[]|e] eqn:V;
    [|reflexivity].
  apply validatePrompt_ok_string in V. destruct V as (s & E & B).
  rewrite callGeminiAPI_agree with (p2 := p2) (P := freeformSent);
    [reflexivity|exact H|].
  rewrite E. do 3 eexists. split; [reflexivity|]. now split.
Qed.

(** X7.  [getWritingPrompts] only ever asks the provider for 1 to 5 prompts,
    with the caller's mood and theme. *)
Theorem getWritingPrompts_sends mood theme count (st : State) :
  agree_on (writingSent mood theme) p1 p2 ->
  getWritingPrompts p1 mood theme count st
  = getWritingPrompts p2 mood theme count st.
Proof.
  intros H. unfold getWritingPrompts, generateWritingPrompts, bind. simpl.
  rewrite callGeminiAPI_agree with (p2 := p2) (P := writingSent mood theme);
    [reflexivity|exact H|].
  eexists. split; [reflexivity|]. apply promptCount_range.
Qed.

(** X8.  [getReflectionPrompt] only ever sends the provider the letter the
    store returned for the caller, delivered and with content, under a
    title of at most 100 units without double quote or backslash. *)
Theorem getReflectionPrompt_sends user letterId (st : State) :
  agree_on (reflectionSent getLetterById user letterId) p1 p2 ->
  getReflectionPrompt p1 getLetterById user letterId st
  = getReflectionPrompt p2 getLetterById user letterId st.
Proof.
  intros H. unfold getReflectionPrompt.
  destruct (negb (truthy letterId)); [reflexivity|].
  unfold bind at 1 3, lift.
  destruct (getLetterById (user_id user) letterId) as [letter|e] eqn:G;
    [|reflexivity].
  destruct (isDelivered letter) eqn:D; [|reflexivity]. cbn [negb].
  unfold generateReflectionPrompt, bind.
  destruct (has_content letter) eqn:C; [|reflexivity].
  rewrite callGeminiAPI_agree
    with (p2 := p2) (P := reflectionSent getLetterById user letterId);
    [reflexivity|exact H|].
  do 2 eexists. split; [reflexivity|]. repeat split; auto.
  - apply (proj1 (sanitizeForPrompt_length _ (Some 100%Z))).
  - apply sanitizeForPrompt_members.
  - apply sanitizeForPrompt_members.
Qed.
End Sent.

Section SentAffirmation.
Variables p1 p2 : nat -> Request -> ProviderOutcome.

(** X9.  [getAffirmation] only ever sends the caller's time of day and
    statistics, with the name, or the username when the name is empty. *)
Theorem getAffirmation_sends user tod (st : State) :
  agree_on (affirmationSent user tod) p1 p2 ->
  getAffirmation p1 user tod st = getAffirmation p2 user tod st.
Proof.
  intros H. unfold getAffirmation, generateAffirmation, bind.
  rewrite callGeminiAPI_agree
    with (p2 := p2) (P := affirmationSent user tod); [reflexivity|exact H|].
  eexists. split; [reflexivity|]. split; [reflexivity|].
  split; [reflexivity|]. unfold js_or. cbn [username].
  now destruct (truthy (user_name user)).
Qed.
End SentAffirmation.


Section Outcomes.
Variable provider : nat -> Request -> ProviderOutcome.
Variable getLetterById : jsval -> jsval -> result thrown Letter.

(** X10.  A delivered letter without content is refused with a Validation error
    on the field [letter], before any call to the provider. *)
Theorem getReflectionPrompt_no_content user letterId letter st :
  truthy letterId = true ->
  getLetterById (user_id user) letterId = Ok letter ->
  isDelivered letter = true ->
  (content letter = None \/ content letter = Some []) ->
  getReflectionPrompt provider getLetterById user letterId st
  = (Err (ValidationError
            (str "Letter content is required to generate a reflection prompt")
            [(str "letter", str "A valid letter with content is required")]),
     st).
Proof.
  intros T G D C. unfold getReflectionPrompt, bind, lift.
  rewrite T, G, D. cbn [negb]. unfold generateReflectionPrompt, has_content.
  now destruct C as [-> | ->].
Qed.

Section Resolved.
Variable st : State.
Variable response : Response.
Hypothesis resolved :
  forall request, provider (provider_calls st) request = Resolved response.

(** X11.  Once the provider has answered, the reflection intent always returns
    a result; the writing-prompts and affirmation intents return one
    exactly when the answer has a text, and raise a TypeError otherwise. *)
Theorem resolved_outcomes :
  (forall letter, has_content letter = true ->
      exists r, generateReflectionPrompt provider (Some letter) st
                = (Ok r, bump st))
  /\ (forall options,
        match text response with
        | Some _ => exists r, generateWritingPrompts provider options st
                              = (Ok r, bump st)
        | None => generateWritingPrompts provider options st
                  = (Err TypeError, bump st)
        end)
  /\ (forall options,
        match text response with
        | Some _ => exists r, generateAffirmation provider options st
                              = (Ok r, bump st)
        | None => generateAffirmation provider options st
                  = (Err TypeError, bump st)
        end).
Proof.
  split; [|split].
  - intros letter C. unfold generateReflectionPrompt, bind. rewrite C.
    rewrite (gateway_call_resolved _ _ _ (resolved _)).
    destruct (decode (str "question") response); eexists; reflexivity.
  - intros options. destruct (text response) as [t|] eqn:T.
    + unfold generateWritingPrompts, bind.
      rewrite (gateway_call_resolved _ _ _ (resolved _)).
      destruct (decode (str "prompts") response); [eexists; reflexivity|].
      rewrite T. eexists; reflexivity.
    + now apply generateWritingPrompts_no_text with (response := response).
  - intros options. destruct (text response) as [t|] eqn:T.
    + unfold generateAffirmation, bind.
      rewrite (gateway_call_resolved _ _ _ (resolved _)).
      destruct (decode (str "affirmation") response); [eexists; reflexivity|].
      rewrite T. eexists; reflexivity.
    + now apply generateAffirmation_no_text with (response := response).
Qed.

Lemma fallbackPrompts_lines t n p :
  In p (fallbackPrompts t n) ->
  (6 <= length p)%nat /\ trimmed p /\ ~ In LF p.
Proof.
  unfold fallbackPrompts, slice0. intros H.
  assert (H' : In p (filter (fun p => (5 <? length p)%nat)
                        (map trim (split LF t)))).
  { destruct (n <? 0)%Z; now apply firstn_in in H. }
  apply filter_In in H'. destruct H' as [H' L]. apply Nat.ltb_lt in L.
  apply in_map_iff in H'. destruct H' as (line & <- & I).
  split; [lia|]. split; [apply trim_trimmed|].
  intros F. apply trim_in in F. revert F. now apply split_no_sep with (s := t).
Qed.

(** X12.  When the answer has a text that does not decode, [getWritingPrompts]
    answers with success and a data object whose [prompts] is an array of
    at most 5 strings, each trimmed, without line feed and at least 6
    units long. *)
Theorem getWritingPrompts_fallback mood theme count t :
  text response = Some t ->
  decode (str "prompts") response = None ->
  exists ps,
    getWritingPrompts provider mood theme count st
    = (Ok {| success := true;
             data := {| data_prompts := VArr (map VStr ps) |} |}, bump st)
    /\ (length ps <= 5)%nat
    /\ (forall p, In p ps ->
          (6 <= length p)%nat /\ trimmed p /\ ~ In LF p).
Proof.
  intros T D.
  exists (fallbackPrompts t (promptCount count)).
  split; [|split].
  - unfold getWritingPrompts, bind, ret.
    rewrite generateWritingPrompts_fallback with (response := response) (t := t);
      auto.
  - pose proof (promptCount_range count) as R.
    unfold fallbackPrompts. rewrite slice0_nonneg by lia.
    rewrite length_firstn. lia.
  - intros p. apply fallbackPrompts_lines.
Qed.

(** X13.  On a prompt that is valid and a provider that answers, [generate]
    returns the envelope of the formatted answer after one call: the
    text as it is, never parsed, or the empty string when there is none. *)
Theorem generate_returns_text body s :
  body_prompt body = VStr s -> blank s = false ->
  generate provider body st
  = (Ok {| success := true; data := formatResponse response |}, bump st)
  /\ gen_text (formatResponse response)
     = match text response with Some t => t | None => [] end
  /\ degraded (gen_metadata (formatResponse response)) = false.
Proof.
  intros E B. split; [|split; reflexivity].
  unfold generate, generateContent, bind, lift, ret. rewrite E.
  rewrite (validatePrompt_accepts s B).
  now rewrite (gateway_call_resolved _ _ _ (resolved _)).
Qed.
End Resolved.
End Outcomes.

End CallProps.

(* ================================================================== *)
(** * Further properties: the prompt helpers *)
(* ================================================================== *)

Module HelperProps.
Import JS Effects Service Controller Helpers Readings Observations.
Import StringProps ConfigProps TextProps.
#[local] Arguments cu_eqb : simpl never.

Lemma uint_units_digits (u : Decimal.uint) :
  forallb is_digit (uint_units u) = true.
Proof. induction u; simpl; auto. Qed.

Lemma digits_value_acc (u : Decimal.uint) (acc : Z) :
  fold_left (fun a c => (10 * a + digit_value c)%Z) (uint_units u) acc
  = (Z.of_N (DecimalPos.Unsigned.of_lu (Decimal.rev u))
     + acc * 10 ^ Z.of_N (DecimalPos.Unsigned.usize u))%Z.
Proof.
  revert acc.
  induction u; intros acc; cbn [uint_units fold_left];
    [simpl; lia | ..];
    unfold Decimal.rev; cbn [Decimal.revapp];
    rewrite (DecimalPos.Unsigned.of_lu_revapp u); cbn [DecimalPos.Unsigned.of_lu DecimalPos.Unsigned.usize];
    rewrite IHu;
    rewrite N2Z.inj_add, N2Z.inj_mul, N2Z.inj_pow, N2Z.inj_succ;
    rewrite Z.pow_succ_r by lia;
    unfold digit_value; simpl Z.of_N; lia.
Qed.

Lemma digits_value_uint (u : Decimal.uint) :
  digits_value (uint_units u) = Z.of_N (Pos.of_uint u).
Proof.
  unfold digits_value. rewrite digits_value_acc, DecimalPos.Unsigned.of_uint_alt. lia.
Qed.

Lemma takeWhile_app_all A (p : A -> bool) (a b : list A) :
  forallb p a = true ->
  match b with x :: _ => p x = false | [] => True end ->
  takeWhile p (a ++ b) = a.
Proof.
  intros Ha Hb. induction a as [|x a IH]; simpl in *.
  - destruct b as [|y b]; [reflexivity|]. simpl. now rewrite Hb.
  - apply andb_true_iff in Ha. destruct Ha as [-> Ha]. now rewrite IH.
Qed.

Lemma digit_not_whitespace c : is_digit c = true -> is_whitespace c = false.
Proof.
  unfold is_digit, is_whitespace. intros H.
  apply andb_true_iff in H. rewrite !N.leb_le in H.
  repeat match goal with
         | |- context [N.eqb c ?k] => destruct (N.eqb_spec c k); [lia|]
         | |- context [N.leb ?a ?b] => destruct (N.leb_spec a b); try lia
         end; reflexivity.
Qed.

Lemma digit_not_sign c :
  is_digit c = true -> (c =? 45)%N = false /\ (c =? 43)%N = false.
Proof.
  unfold is_digit. intros H. apply andb_true_iff in H. rewrite !N.leb_le in H.
  split; apply N.eqb_neq; lia.
Qed.

(** Reading digits back: [parseInt] of the digits of a natural number. *)
Lemma parseInt10_units (u : Decimal.uint) (rest : jsstring) :
  u <> Decimal.Nil ->
  match rest with x :: _ => is_digit x = false | [] => True end ->
  parseInt10 (uint_units u ++ rest) = Some (Z.of_N (Pos.of_uint u))
  /\ takeWhile is_digit (uint_units u ++ rest) = uint_units u
  /\ uint_units u <> [].
Proof.
  intros NN HR.
  assert (T : takeWhile is_digit (uint_units u ++ rest) = uint_units u).
  { apply takeWhile_app_all; [apply uint_units_digits|exact HR]. }
  assert (NE : uint_units u <> []) by (destruct u; [congruence|..]; discriminate).
  split; [|now split].
  pose proof (uint_units_digits u) as D.
  unfold parseInt10, trimStart.
  destruct (uint_units u) as [|c r] eqn:E; [congruence|].
  simpl in D. apply andb_true_iff in D. destruct D as [Dc Dr].
  cbn [app]. cbn [app] in T.
  rewrite dropWhile_fixed by (now apply digit_not_whitespace).
  destruct (digit_not_sign c Dc) as [-> ->].
  rewrite T. rewrite <- E. now rewrite digits_value_uint.
Qed.

Lemma parseInt10_integer (z : Z) (rest : jsstring) :
  match rest with x :: _ => is_digit x = false | [] => True end ->
  parseInt10 (integer_to_string z ++ rest) = Some z.
Proof.
  intros HR. unfold integer_to_string.
  destruct z as [|p|p]; cbn [Z.to_int].
  - assert (N0 : Decimal.D0 Decimal.Nil <> Decimal.Nil) by discriminate.
    now destruct (parseInt10_units rest N0 HR) as [-> _].
  - destruct (parseInt10_units rest
                (DecimalPos.Unsigned.to_uint_nonnil p) HR) as [-> _].
    now rewrite DecimalPos.Unsigned.of_to.
  - destruct (parseInt10_units rest
                (DecimalPos.Unsigned.to_uint_nonnil p) HR) as (_ & T & NE).
    unfold parseInt10, trimStart. cbn [app dropWhile].
    change (is_whitespace 45%N) with false. cbv iota.
    change (45 =? 45)%N with true. cbv iota. rewrite T.
    destruct (uint_units (Pos.to_uint p)) eqn:E; [congruence|].
    rewrite <- E, digits_value_uint, DecimalPos.Unsigned.of_to. reflexivity.
Qed.

Lemma counted_parse (n : Z) (word : jsstring) :
  parseInt10 (counted (Some n) word) = Some n.
Proof. unfold counted, number_to_string. now apply parseInt10_integer. Qed.

(** X14.  For a valid date the elapsed time is shown as a count and a unit: days
    below 7 days, then 1 to 4 weeks below 30 days, then 1 to 12 months
    below 365 days, then years; the count is the quotient rounded down
    and the text starts with it. *)
Theorem getTimeSinceWritten_buckets (now ms : Z) :
  let d := ((now - ms) / MS_PER_DAY)%Z in
  let shown := getTimeSinceWritten now (Some (At ms)) in
  exists n unit,
    shown = counted (Some n) unit
    /\ parseInt10 shown = Some n
    /\ ((d < 7 /\ unit = str "day" /\ n = d)
        \/ (7 <= d < 30 /\ unit = str "week"
            /\ 1 <= n <= 4 /\ 7 * n <= d < 7 * n + 7)
        \/ (30 <= d < 365 /\ unit = str "month"
            /\ 1 <= n <= 12 /\ 30 * n <= d < 30 * n + 30)
        \/ (365 <= d /\ unit = str "year"
            /\ 1 <= n /\ 365 * n <= d < 365 * n + 365))%Z.
Proof.
  intros d shown. subst shown. unfold getTimeSinceWritten.
  cbn [floor_div num_lt]. fold MS_PER_DAY. fold d.
  destruct (Z.ltb_spec d 7).
  { exists d, (str "day"). split; [reflexivity|].
    split; [apply counted_parse|]. left. now repeat split. }
  destruct (Z.ltb_spec d 30).
  { exists (d / 7)%Z, (str "week"). split; [reflexivity|].
    split; [apply counted_parse|]. right. left.
    pose proof (Z.div_mod d 7 ltac:(lia)).
    pose proof (Z.mod_pos_bound d 7 ltac:(lia)).
    repeat split; try lia. }
  destruct (Z.ltb_spec d 365).
  { exists (d / 30)%Z, (str "month"). split; [reflexivity|].
    split; [apply counted_parse|]. right. right. left.
    pose proof (Z.div_mod d 30 ltac:(lia)).
    pose proof (Z.mod_pos_bound d 30 ltac:(lia)).
    repeat split; try lia. }
  exists (d / 365)%Z, (str "year"). split; [reflexivity|].
  split; [apply counted_parse|]. right. right. right.
  pose proof (Z.div_mod d 365 ltac:(lia)).
  pose proof (Z.mod_pos_bound d 365 ltac:(lia)).
  repeat split; try lia.
Qed.

(** X15.  An absent date gives [some time], an invalid date [NaN years], and a
    date in the future a negative number of days. *)
Theorem getTimeSinceWritten_edges (now ms : Z) :
  getTimeSinceWritten now None = str "some time"
  /\ getTimeSinceWritten now (Some InvalidDate) = str "NaN years"
  /\ (now < ms ->
      exists k, (0 < k)%Z
        /\ getTimeSinceWritten now (Some (At ms))
           = str "-" ++ integer_to_string k ++ str " days")%Z.
Proof.
  split; [reflexivity|]. split; [reflexivity|]. intros H.
  unfold getTimeSinceWritten. cbn [floor_div num_lt].
  set (d := ((now - ms) / (1000 * 60 * 60 * 24))%Z).
  assert (D : (d < 0)%Z) by (apply Z.div_lt_upper_bound; lia).
  destruct (Z.ltb_spec d 7); [|lia].
  exists (- d)%Z. split; [lia|].
  unfold counted, number_to_string, num_neq.
  destruct (Z.eqb_spec d 1); [lia|]. cbn [negb].
  destruct d as [|p|p]; try lia. reflexivity.
Qed.

(** X21.  The count is read from the integer at the start of the query value,
    after white space and whatever follows it: for an integer other than
    0 it is that integer clamped to 1..5. *)
Theorem promptCount_leading_integer (n : Z) (lead rest : jsstring) :
  blank lead = true ->
  match rest with x :: _ => is_digit x = false | [] => True end ->
  n <> 0%Z ->
  promptCount (Some (lead ++ integer_to_string n ++ rest))
  = Z.max 1 (Z.min 5 n).
Proof.
  intros B R N. apply promptCount_integer; [|exact N].
  rewrite <- (parseInt10_integer n rest R).
  unfold parseInt10, trimStart. f_equal.
  clear R N. unfold blank in B.
  induction lead as [|c lead IH]; [reflexivity|].
  simpl in B. apply andb_true_iff in B. destruct B as [Bc Bl].
  cbn [app dropWhile]. rewrite Bc. now apply IH.
Qed.

Lemma split_piece sep (a b : jsstring) :
  ~ In sep a -> split sep (a ++ sep :: b) = a :: split sep b.
Proof.
  induction a as [|c a IH]; intros H; cbn [app split].
  - now rewrite cu_eqb_refl.
  - destruct (cu_eqb c sep) eqn:E.
    { apply cu_eqb_eq in E. subst c. exfalso. apply H. now left. }
    rewrite IH by (intros I; apply H; now right). reflexivity.
Qed.

Lemma split_no_separator sep (a : jsstring) :
  ~ In sep a -> split sep a = [a].
Proof.
  induction a as [|c a IH]; intros H; cbn [split]; [reflexivity|].
  destruct (cu_eqb c sep) eqn:E.
  { apply cu_eqb_eq in E. subst c. exfalso. apply H. now left. }
  rewrite IH by (intros I; apply H; now right). reflexivity.
Qed.

(** [split] undoes [join] when no piece holds the separator. *)
Lemma join_split sep (l : list jsstring) :
  l <> [] -> (forall x, In x l -> ~ In sep x) ->
  split sep (join sep l) = l.
Proof.
  induction l as [|x l IH]; intros NE H; [congruence|].
  destruct l as [|y l].
  - cbn [join]. apply split_no_separator, H. now left.
  - change (join sep (x :: y :: l)) with (x ++ sep :: join sep (y :: l)).
    rewrite split_piece by (apply H; now left).
    rewrite IH; [reflexivity|discriminate|].
    intros z Hz. apply H. now right.
Qed.

Lemma goalLine_single_line (g : Goal) :
  single_line (goal_text g) -> single_line (goal_status g) ->
  ~ In LF (goalLine g).
Proof.
  unfold single_line, goalLine. intros T S H.
  apply in_app_or in H. destruct H as [H|H].
  { revert H. vm_compute. intuition discriminate. }
  apply in_app_or in H. destruct H as [H|H]; [auto|].
  destruct (is_pending (goal_status g)); [destruct H|].
  apply in_app_or in H. destruct H as [H|H].
  { revert H. vm_compute. intuition discriminate. }
  apply in_app_or in H. destruct H as [H|H]; [auto|].
  revert H. vm_compute. intuition discriminate.
Qed.

(** X16.  For goals whose text and status hold no line feed, the rendered goals
    are the header line followed by one line per goal, in order. *)
Theorem formatGoalsForPrompt_lines (goals : list Goal) :
  goals <> [] ->
  (forall g, In g goals ->
             single_line (goal_text g) /\ single_line (goal_status g)) ->
  split LF (formatGoalsForPrompt (Some goals))
  = GOALS_HEADER :: map goalLine goals.
Proof.
  intros NE H. unfold formatGoalsForPrompt.
  destruct goals as [|g gs]; [congruence|].
  change (GOALS_HEADER ++ [LF] ++ join LF (map goalLine (g :: gs)))
    with (GOALS_HEADER ++ LF :: join LF (map goalLine (g :: gs))).
  rewrite split_piece by (vm_compute; intuition discriminate).
  rewrite join_split; [reflexivity|discriminate|].
  intros x Hx. apply in_map_iff in Hx. destruct Hx as (g' & <- & Hg).
  destruct (H g' Hg). now apply goalLine_single_line.
Qed.

Theorem formatGoalsForPrompt_empty (goals : option (list Goal)) :
  formatGoalsForPrompt goals = []
  <-> goals = None \/ goals = Some [].
Proof.
  split.
  - destruct goals as [[|g gs]|]; auto. discriminate.
  - now intros [-> | ->].
Qed.

Lemma goalLine_pending (g : Goal) :
  goal_status g = Some (str "pending") ->
  goalLine g = str "- " ++ to_string (goal_text g).
Proof. intros E. unfold goalLine. rewrite E. simpl. now rewrite app_nil_r. Qed.

Section Subsequences.
Variable A : Type.

Lemma subsequence_refl (l : list A) : subsequence l l.
Proof. induction l; constructor; auto. Qed.

Lemma subsequence_nil_l (l : list A) : subsequence [] l.
Proof. induction l; constructor; auto. Qed.

Lemma subsequence_filter (f : A -> bool) (l : list A) :
  subsequence (filter f l) l.
Proof.
  induction l as [|x l IH]; simpl; [constructor|].
  destruct (f x); constructor; exact IH.
Qed.

Lemma subsequence_firstn (n : nat) (l l' : list A) :
  subsequence l l' -> subsequence (firstn n l) l'.
Proof.
  intros H. revert n. induction H; intros n.
  - rewrite firstn_nil. constructor.
  - destruct n; simpl; [apply subsequence_nil_l|]. constructor. apply IHsubsequence.
  - constructor. apply IHsubsequence.
Qed.

Lemma subsequence_map B (f : A -> B) (l l' : list A) :
  subsequence l l' -> subsequence (map f l) (map f l').
Proof. induction 1; simpl; constructor; auto. Qed.

Lemma subsequence_incl (l l' : list A) x :
  subsequence l l' -> In x l -> In x l'.
Proof.
  induction 1; simpl; auto.
  - intros [->|H']; auto.
Qed.
End Subsequences.

Lemma starts_with_spec (p s : jsstring) :
  starts_with p s = true <-> exists b, s = p ++ b.
Proof.
  revert s. induction p as [|x p IH]; intros s; simpl.
  - split; eauto.
  - destruct s as [|y s].
    + split; [discriminate|]. intros (b & E). discriminate.
    + rewrite andb_true_iff, cu_eqb_eq, IH. split.
      * intros (-> & b & ->). eauto.
      * intros (b & [= -> ->]). eauto.
Qed.

(** [includes] finds exactly the substrings. *)
Lemma includes_spec (needle hay : jsstring) :
  includes needle hay = true <-> exists a b, hay = a ++ needle ++ b.
Proof.
  induction hay as [|c hay IH]; cbn [includes].
  - rewrite orb_false_r, starts_with_spec. split.
    + intros (b & E). exists [], b. exact E.
    + intros (a & b & E). destruct a; [eauto|discriminate].
  - rewrite orb_true_iff, starts_with_spec, IH. split.
    + intros [(b & E)|(a & b & E)].
      * exists [], b. exact E.
      * exists (c :: a), b. now rewrite E.
    + intros (a & b & E). destruct a as [|x a].
      * left. eauto.
      * right. injection E as _ E. eauto.
Qed.

Lemma joinWith_length (sep : jsstring) (l : list jsstring) k :
  l <> [] ->
  (forall x, In x l -> length x <= k)%nat ->
  (length (joinWith sep l) + length sep <= length l * (k + length sep))%nat.
Proof.
  induction l as [|x l IH]; intros NE H; [congruence|].
  assert (Hx : (length x <= k)%nat) by (apply H; now left).
  assert (Hl : forall y, In y l -> (length y <= k)%nat)
    by (intros y Hy; apply H; now right).
  destruct l as [|y l].
  - simpl. lia.
  - specialize (IH ltac:(discriminate) Hl).
    change (joinWith sep (x :: y :: l))
      with (x ++ sep ++ joinWith sep (y :: l)).
    rewrite !length_app. cbn [length] in *. lia.
Qed.

Lemma joinWith_head (sep x : jsstring) (l : list jsstring) :
  starts_with x (joinWith sep (x :: l)) = true.
Proof.
  apply starts_with_spec. destruct l as [|y l].
  - exists []. simpl. now rewrite app_nil_r.
  - eexists. reflexivity.
Qed.

Lemma labels_short x : In x THEME_LABELS -> (length x <= 22)%nat.
Proof.
  vm_compute. intros H.
  repeat (destruct H as [<-|H]; [repeat constructor|]). destruct H.
Qed.

Section Themes.
Variable toLowerCase : jsstring -> jsstring.

Lemma detectedThemes_subsequence lowerContent :
  subsequence (detectedThemes lowerContent) THEME_LABELS.
Proof.
  unfold detectedThemes, THEME_LABELS.
  apply subsequence_map, subsequence_filter.
Qed.

(** X18.  Whatever the content and its lower-casing, the themes text is at most
    70 units long and is one of the two default texts or one to three of
    the ten labels, in the order of the rules, joined by commas. *)
Theorem extractThemes_bounded (content : option jsstring) :
  let out := extractThemes toLowerCase content in
  (length out <= 70)%nat
  /\ (out = str "personal reflection"
      \/ out = str "self-reflection and personal thoughts"
      \/ exists themes,
          themes <> [] /\ (length themes <= 3)%nat
          /\ subsequence themes THEME_LABELS
          /\ out = joinWith (str ", ") themes).
Proof.
  cbv zeta. unfold extractThemes.
  destruct content as [[|c r]|];
    [split; [vm_compute; repeat constructor|now left] |
     | split; [vm_compute; repeat constructor|now left]].
  pose proof (detectedThemes_subsequence (toLowerCase (c :: r))) as S.
  destruct (detectedThemes (toLowerCase (c :: r))) as [|t ts] eqn:E.
  { split; [vm_compute; repeat constructor|right; now left]. }
  cbn [length Nat.ltb Nat.leb]. unfold slice0. cbn [Z.ltb Z.compare Z.to_nat].
  change (Pos.to_nat 3) with 3%nat.
  assert (S3 : subsequence (firstn 3 (t :: ts)) THEME_LABELS)
    by now apply subsequence_firstn.
  assert (L3 : (length (firstn 3 (t :: ts)) <= 3)%nat)
    by (rewrite length_firstn; lia).
  split.
  - assert (J := @joinWith_length (str ", ") (firstn 3 (t :: ts)) 22%nat).
    change (length (str ", ")) with 2%nat in J.
    assert (length (joinWith (str ", ") (firstn 3 (t :: ts))) + 2
            <= length (firstn 3 (t :: ts)) * 24)%nat; [|lia].
    apply J; [discriminate|].
    intros x Hx. apply labels_short.
    now apply subsequence_incl with (l := firstn 3 (t :: ts)).
  - right. right. exists (firstn 3 (t :: ts)).
    repeat split; auto. discriminate.
Qed.

(** X19.  The first rule one of whose keywords occurs in the lower-cased content
    gives the first theme of the text. *)
Theorem extractThemes_priority (content : jsstring) before rule after
        keyword a b :
  content <> [] ->
  THEME_RULES = before ++ rule :: after ->
  forallb (fun r => negb (mentions (toLowerCase content) r)) before = true ->
  In keyword (fst rule) ->
  toLowerCase content = a ++ keyword ++ b ->
  starts_with (snd rule) (extractThemes toLowerCase (Some content)) = true.
Proof.
  intros NE R B K E. unfold extractThemes.
  destruct content as [|c r]; [congruence|].
  assert (M : mentions (toLowerCase (c :: r)) rule = true).
  { unfold mentions. apply existsb_exists. exists keyword.
    split; [exact K|]. apply includes_spec. eauto. }
  assert (F : filter (mentions (toLowerCase (c :: r))) before = []).
  { clear R. induction before as [|x l IH]; [reflexivity|].
    simpl in B |- *. apply andb_true_iff in B. destruct B as [Bx Bl].
    destruct (mentions (toLowerCase (c :: r)) x); [discriminate|]. now apply IH. }
  unfold detectedThemes. rewrite R, filter_app, F. cbn [app filter].
  rewrite M. cbn [map length Nat.ltb Nat.leb].
  unfold slice0. cbn [Z.ltb Z.compare Z.to_nat].
  change (Pos.to_nat 3) with 3%nat. cbn [firstn].
  apply joinWith_head.
Qed.
End Themes.





Section Statistics.
Variable positive : jsval -> bool.
Variable not_one : jsval -> bool.
Variable show : jsval -> jsstring.



End Statistics.

End HelperProps.

(* ================================================================== *)
(** * Further properties: the user model *)
(* ================================================================== *)

Module UserProps.
Import JS UserModel StringProps.
#[local] Arguments cu_eqb : simpl never.

Lemma jsstring_eqb_eq (a b : jsstring) : jsstring_eqb a b = true <-> a = b.
Proof.
  revert b. induction a as [|x a IH]; intros [|y b]; simpl;
    try (split; [discriminate|congruence]); [tauto|].
  rewrite andb_true_iff, cu_eqb_eq, IH. split.
  - now intros [-> ->].
  - now intros [= -> ->].
Qed.

Lemma lookup_delete_same key fields :
  lookup key (delete_property key fields) = VUndefined.
Proof.
  unfold delete_property.
  induction fields as [|[k v] r IH]; [reflexivity|]. simpl.
  destruct (jsstring_eqb key k) eqn:E; simpl; [exact IH|].
  now rewrite IH, E.
Qed.

Lemma lookup_delete_other key k fields :
  k <> key ->
  lookup k (delete_property key fields) = lookup k fields.
Proof.
  intros N. unfold delete_property.
  induction fields as [|[k' v] r IH]; [reflexivity|]. simpl.
  destruct (jsstring_eqb key k') eqn:E; simpl.
  - apply jsstring_eqb_eq in E. subst k'. rewrite IH.
    destruct (lookup k r); try reflexivity.
    destruct (jsstring_eqb k key) eqn:E'; [|reflexivity].
    apply jsstring_eqb_eq in E'. contradiction.
  - now rewrite IH.
Qed.

(** X20.  The serialized user has no [hashedPassword] field, and every other
    field as before. *)
Theorem toJSON_transform_hides_hash (returnedObject : list (jsstring * jsval)) :
  lookup (str "hashedPassword") (toJSON_transform returnedObject) = VUndefined
  /\ (forall k, k <> str "hashedPassword" ->
        lookup k (toJSON_transform returnedObject) = lookup k returnedObject)
  /\ ~ In (str "hashedPassword") (map fst (toJSON_transform returnedObject)).
Proof.
  split; [apply lookup_delete_same|]. split.
  - intros k N. now apply lookup_delete_other.
  - unfold toJSON_transform, delete_property. intros H.
    apply in_map_iff in H. destruct H as ([k v] & E & H). simpl in E. subst k.
    apply filter_In in H. destruct H as [_ H]. now vm_compute in H.
Qed.

End UserProps.

(* ================================================================== *)
(** * The further properties at sample inputs *)
(* ================================================================== *)

Module ExtraWitnesses.
Import JS Effects Effects.Notations Service Controller Helpers UserModel.
Import Readings Observations MoreSamples.
Import ShapeProps CallProps HelperProps UserProps.

Lemma validatePrompt_accepts_iff_witness :
  validatePrompt (VStr (str "Hello")) = Ok tt.
Proof.
  apply (proj2 (validatePrompt_accepts_iff (VStr (str "Hello")))).
  exists (str "Hello"). split; reflexivity.
Defined.

Lemma extractQuestionFromText_empty_witness :
  In QMARK (str "Done. ?")
  /\ exists pre body post,
      str "Done. ?" = pre ++ body ++ QMARK :: post
      /\ ~ In QMARK pre /\ plain body /\ sentence_end pre
      /\ (extractQuestionFromText (Some (str "Done. ?")) = []
          <-> existsb is_letter body = false).
Proof.
  assert (H : In QMARK (str "Done. ?")) by (vm_compute; tauto).
  split; [exact H|].
  exact (@extractQuestionFromText_empty (str "Done. ?") H).
Defined.

Lemma generate_sends_witness :
  generate Samples.silentProvider helloBody Samples.initial
  = generate freeformOnly helloBody Samples.initial.
Proof.
  apply generate_sends.
  intros n request (m & s & config & -> & _). reflexivity.
Defined.

Lemma getWritingPrompts_sends_witness :
  getWritingPrompts Samples.silentProvider VUndefined VUndefined
    (Some (str "9")) Samples.initial
  = getWritingPrompts smallCountsOnly VUndefined VUndefined
      (Some (str "9")) Samples.initial.
Proof.
  apply getWritingPrompts_sends.
  intros n request (k & -> & H). unfold smallCountsOnly.
  rewrite (proj2 (Z.leb_le 1 k)) by lia.
  rewrite (proj2 (Z.leb_le k 5)) by lia. reflexivity.
Defined.

Lemma getReflectionPrompt_sends_witness :
  getReflectionPrompt Samples.silentProvider Samples.store Samples.writer
    (VStr (str "letter-2")) Samples.initial
  = getReflectionPrompt deliveredOnly Samples.store Samples.writer
      (VStr (str "letter-2")) Samples.initial.
Proof.
  apply getReflectionPrompt_sends.
  intros n request (t & letter & -> & _ & D & _). unfold deliveredOnly.
  now rewrite D.
Defined.

Lemma getAffirmation_sends_witness :
  getAffirmation Samples.silentProvider Samples.writer VUndefined
    Samples.initial
  = getAffirmation affirmationOnly Samples.writer VUndefined Samples.initial.
Proof.
  apply getAffirmation_sends.
  intros n request (options & -> & _). reflexivity.
Defined.

Lemma getReflectionPrompt_no_content_witness :
  exists details,
    getReflectionPrompt Samples.failingProvider emptyStore Samples.writer
      (VStr (str "letter-3")) Samples.initial
    = (Err (ValidationError
              (str "Letter content is required to generate a reflection prompt")
              details), Samples.initial).
Proof.
  eexists.
  apply (@getReflectionPrompt_no_content Samples.failingProvider emptyStore
           Samples.writer (VStr (str "letter-3")) emptyLetter
           Samples.initial);
    [reflexivity|reflexivity|reflexivity|now right].
Defined.

Lemma resolved_outcomes_witness :
  generateWritingPrompts Samples.silentProvider Samples.noOptions
    Samples.initial
  = (Err TypeError, bump Samples.initial).
Proof.
  exact (proj1 (proj2 (@resolved_outcomes Samples.silentProvider
                         Samples.initial Samples.silentResponse
                         (fun _ => eq_refl)))
           Samples.noOptions).
Defined.

Lemma getWritingPrompts_fallback_witness :
  exists ps,
    getWritingPrompts (Samples.chattyProvider Samples.threeLines)
      VUndefined VUndefined None Samples.initial
    = (Ok {| success := true;
             data := {| data_prompts := VArr (map VStr ps) |} |},
       bump Samples.initial)
    /\ (length ps <= 5)%nat.
Proof.
  destruct (@getWritingPrompts_fallback
              (Samples.chattyProvider Samples.threeLines) Samples.initial
              (plainResponse Samples.threeLines) (fun _ => eq_refl)
              VUndefined VUndefined None Samples.threeLines eq_refl
              ltac:(vm_compute; reflexivity))
    as (ps & E & L & _).
  exists ps. split; [exact E|exact L].
Defined.

Lemma generate_returns_text_witness :
  fst (generate (Samples.chattyProvider (str "Hi there")) helloBody
         Samples.initial)
  = Ok {| success := true;
          data := formatResponse (plainResponse (str "Hi there")) |}.
Proof.
  rewrite (proj1 (@generate_returns_text
                    (Samples.chattyProvider (str "Hi there")) Samples.initial
                    (plainResponse (str "Hi there")) (fun _ => eq_refl)
                    helloBody (str "Hello") eq_refl eq_refl)).
  reflexivity.
Defined.

Lemma getTimeSinceWritten_edges_witness :
  exists k, (0 < k)%Z
    /\ getTimeSinceWritten 0 (Some (At 259200000))
       = str "-" ++ integer_to_string k ++ str " days".
Proof.
  apply (proj2 (proj2 (getTimeSinceWritten_edges 0 259200000))).
  reflexivity.
Defined.

Lemma formatGoalsForPrompt_lines_witness :
  length (split LF (formatGoalsForPrompt (Some twoGoals))) = 3%nat.
Proof.
  rewrite (@formatGoalsForPrompt_lines twoGoals).
  - reflexivity.
  - discriminate.
  - intros g [<-|[<-|[]]]; split; vm_compute; intuition discriminate.
Defined.


Lemma extractThemes_priority_witness :
  starts_with (str "career")
    (extractThemes (fun s => s) (Some (str "my job is fun"))) = true.
Proof.
  apply (@extractThemes_priority (fun s => s) (str "my job is fun")
           (firstn 1 THEME_RULES)
           ([str "work"; str "career"; str "job"], str "career")
           (skipn 2 THEME_RULES) (str "job") (str "my ") (str " is fun")).
  - discriminate.
  - reflexivity.
  - reflexivity.
  - simpl. tauto.
  - reflexivity.
Defined.

Lemma toJSON_transform_hides_hash_witness :
  lookup (str "username") (toJSON_transform storedUser)
  = VStr (str "sam").
Proof.
  rewrite (proj1 (proj2 (toJSON_transform_hides_hash storedUser))).
  - reflexivity.
  - discriminate.
Defined.

Lemma promptCount_leading_integer_witness :
  promptCount (Some (str " 2.9")) = 2%Z.
Proof.
  apply (@promptCount_leading_integer 2 (str " ") (str ".9"));
    [reflexivity|reflexivity|discriminate].
Defined.

End ExtraWitnesses.
